(** * transformer-distiller: loss combination, checkpoint adapter, perplexity
      and the two-stage driver script

    A shallow embedding of [helper/distiller.py], [helper/pretrainer.py] and
    [distillation_2steps.py].

    Conventions of the embedding:
    - a Python call that may raise returns a [result]: [Returns v] or
      [Raises e];
    - a Python [dict] whose order is observable (the loss dictionary, a batch)
      is an insertion-ordered association list ([pydict]); a dictionary that
      is only looked up by key (the argument namespace, a checkpoint, the
      file system) is a [gmap];
    - loss scalars are rationals: the arithmetic of the loss combination is
      exact, and sums are stated with the order in which the terms are
      added; the values of the loss dictionary ([FloatLoss]) and the
      perplexity computation, where infinities are the point, are modelled
      on binary64 floats;
    - where the life of an object matters (the loss dictionary of a
      training step) the object lives in a heap and is changed in place
      ([Store]);
    - code that lives in external libraries (the models' forward pass, the
      hub, [math.exp], the trainer, the logger) and in modules of the
      repository that are imported but not part of the three files (the
      adaptor classes, the class the script imports as [BaseDistiller])
      enters as a parameter. *)

From Stdlib Require Import QArith Lqa ZArith Floats Ascii String.
From stdpp Require Import gmap strings list fin_maps pretty.

Local Open Scope string_scope.

(** ** Exceptions and results *)

Inductive exn : Type :=
| KeyError (key : string)
| UnboundLocalError (var : string)
| AttributeError (attr : string)
| TypeError (msg : string)
| OverflowError
| RuntimeError (msg : string)
| OtherError (msg : string).

Inductive result (A : Type) : Type :=
| Returns (v : A)
| Raises (e : exn).

Arguments Returns {A} v.
Arguments Raises {A} e.

#[global] Instance result_ret : MRet result := fun A v => Returns v.

#[global] Instance result_bind : MBind result := fun A B k c =>
  match c with
  | Returns v => k v
  | Raises e => Raises e
  end.

Definition returns {A : Type} (c : result A) : Prop := exists v, c = Returns v.

(** A call with an effect on a state [S] (the file system, the trace of a
    run): the state it leaves, also when it raises, and its outcome *)
Definition Eff (S A : Type) : Type := S -> S * result A.

#[global] Instance eff_ret {S : Type} : MRet (Eff S) :=
  fun A v st => (st, Returns v).

#[global] Instance eff_bind {S : Type} : MBind (Eff S) := fun A B k c st =>
  match c st with
  | (st', Returns v) => k v st'
  | (st', Raises e) => (st', Raises e)
  end.

Definition lift {S A : Type} (r : result A) : Eff S A := fun st => (st, r).

(** ** Python dictionaries with insertion order *)

Module PyDict.

Section Ops.
Context {V : Type}.

Definition pydict : Type := list (string * V).

(** [d.get(k)] *)
Fixpoint get (k : string) (d : pydict) : option V :=
  match d with
  | [] => None
  | (k', v) :: d' => if String.eqb k k' then Some v else get k d'
  end.

(** [k in d] *)
Definition contains (k : string) (d : pydict) : bool :=
  match get k d with Some _ => true | None => false end.

(** [d[k] = v]: an existing key keeps its position, a new key goes last *)
Fixpoint set (k : string) (v : V) (d : pydict) : pydict :=
  match d with
  | [] => [(k, v)]
  | (k', v') :: d' =>
      if String.eqb k k' then (k, v) :: d' else (k', v') :: set k v d'
  end.

(** the dictionary without key [k] *)
Fixpoint remove (k : string) (d : pydict) : pydict :=
  match d with
  | [] => []
  | (k', v) :: d' =>
      if String.eqb k k' then d' else (k', v) :: remove k d'
  end.

(** [d[k]] *)
Definition getitem (k : string) (d : pydict) : result V :=
  match get k d with
  | Some v => Returns v
  | None => Raises (KeyError k)
  end.

(** [d.pop(k)]: the value and the dictionary after the removal *)
Definition pop (k : string) (d : pydict) : result (V * pydict) :=
  match get k d with
  | Some v => Returns (v, remove k d)
  | None => Raises (KeyError k)
  end.

Definition keys (d : pydict) : list string := map fst d.
Definition values (d : pydict) : list V := map snd d.
End Ops.

Arguments pydict V : clear implicits.

End PyDict.

Import PyDict.

(** [sum(xs)] on scalars: starts from 0 and adds from the left *)
Definition py_sum (xs : list Q) : Q := fold_left Qplus xs 0%Q.

(** [s.split(':')[0]] *)
Fixpoint split_head (s : string) : string :=
  match s with
  | EmptyString => EmptyString
  | String c s' =>
      if Ascii.eqb c ":"%char then EmptyString else String c (split_head s')
  end.

(** ** Dynamic values: what an argument or a configuration field holds *)

Inductive pyval : Type :=
| VNone
| VInt (z : Z)
| VFloat (q : Q)
| VStr (s : string)
| VBool (b : bool).

(** ** Tensors, batches, model outputs *)

Record Tensor : Type := mkTensor { shape : list nat; data : list Q }.

Definition scalar_tensor (q : Q) : Tensor := {| shape := []; data := [q] |}.

Definition Batch : Type := pydict Tensor.

(** The output of a sequence-classification model: the entry ['loss'] is
    present only when the batch carries labels; the other entries
    (['logits'], ['attentions'], ['hidden_states'], ...) are feature
    tensors. *)
Record ModelOutput : Type := mkOutput {
  out_loss : option Q;
  out_features : pydict Tensor
}.

(** [out.get('loss', 0)] *)
Definition get_loss (o : ModelOutput) : Q :=
  match out_loss o with Some l => l | None => 0%Q end.

(** [out.get(name)] *)
Definition out_get (o : ModelOutput) (name : string) : option Tensor :=
  if String.eqb name "loss" then option_map scalar_tensor (out_loss o)
  else get name (out_features o).

Record Config : Type := mkConfig {
  hidden_size : pyval;
  num_hidden_layers : pyval;
  num_attention_heads : pyval;
  num_labels : pyval;
  output_attentions : bool;
  output_hidden_states : bool
}.

Record Model : Type := mkModel {
  m_name : string;
  m_config : Config;
  m_forward : Batch -> result ModelOutput
}.

(** An adaptor of [model/adpator]: a name ["feature:kind"], a scalar weight
    and the loss it computes from the teacher's and the student's feature
    and the attention mask. *)
Record Adaptor : Type := mkAdaptor {
  name : string;
  w : Q;
  call : option Tensor -> option Tensor -> option Tensor -> result Q
}.

(** A [torchmetrics] metric: what it was built with and its current value *)
Record Metric : Type := mkMetric {
  metric_kind : string;
  num_classes : pyval;
  metric_value : Q
}.

(** ** The argument namespace *)

(** [argparse.Namespace]: attribute name to value *)
Abbreviation Namespace := (gmap string pyval).

(** [ns.attr] *)
Definition getattr (ns : Namespace) (attr : string) : result pyval :=
  match ns !! attr with
  | Some v => Returns v
  | None => Raises (AttributeError attr)
  end.

(** [ns.attr = v] *)
Definition setattr (ns : Namespace) (attr : string) (v : pyval) : Namespace :=
  <[attr := v]> ns.

(** * helper/distiller.py *)

Module Distiller.

(** The metrics logged by [self.log]: name and value, in call order *)
Definition Log : Type := list (string * Q).

Record BaseDistiller : Type := mkDistiller {
  hparams : Namespace;
  teacher : Model;
  student : Model;
  adaptors : list Adaptor;
  acc_s : Metric;
  f1_s : Metric;
  test_acc : Metric;
  test_f1 : Metric
}.

(** *** Calling the constructor

    A call site passes objects of any kind and any number; what Python checks
    before the body of [__init__] runs is that the positional arguments fit
    the parameters. *)

#[warnings="-register-all"]
Inductive pyobj : Type :=
| ONew
| OModel (m : Model)
| ONamespace (ns : Namespace)
| OAdaptor (a : Adaptor)
| OMetric (m : Metric)
| OList (items : list pyobj).

(** A function that takes positional parameters only, none with a default *)
Record Signature : Type := mkSignature {
  fn_name : string;
  params : list string
}.

(** Binding the positional arguments of a call to the parameters *)
Definition bind_arguments (sig : Signature) (actuals : list pyobj)
    : result (pydict pyobj) :=
  if bool_decide (length (params sig) < length actuals)%nat then
    Raises (TypeError (fn_name sig ++ "() takes "
                       ++ pretty (length (params sig))
                       ++ " positional arguments but "
                       ++ pretty (length actuals) ++ " were given"))
  else if bool_decide (length actuals < length (params sig))%nat then
    Raises (TypeError (fn_name sig ++ "() missing "
                       ++ pretty (length (params sig) - length actuals)%nat
                       ++ " required positional arguments"))
  else mret (zip (params sig) actuals).

(** [def __init__(self, teacher, student, args, adaptors)] *)
Definition init_signature : Signature :=
  {| fn_name := "__init__";
     params := ["self"; "teacher"; "student"; "args"; "adaptors"] |}.

(** [o.attr] on an object *)
Definition obj_getattr (o : pyobj) (attr : string) : result pyval :=
  match o with
  | ONamespace ns => getattr ns attr
  | _ => Raises (AttributeError attr)
  end.

(** The body of [BaseDistiller.__init__]: the attributes of the new
    instance *)
Definition init_body (frame : pydict pyobj) : result (pydict pyobj) :=
  args ← getitem "args" frame;
  teacher ← getitem "teacher" frame;
  student ← getitem "student" frame;
  adaptors ← getitem "adaptors" frame;
  let self := [("hparams", args)] in
  let self := set "teacher" teacher self in
  let self := set "student" student self in
  let self := set "adaptors" adaptors self in
  n ← obj_getattr args "num_classes";
  let self := set "acc_s" (OMetric (mkMetric "Accuracy" n 0)) self in
  n ← obj_getattr args "num_classes";
  let self := set "f1_s" (OMetric (mkMetric "F1Score" n 0)) self in
  n ← obj_getattr args "num_classes";
  let self := set "test_acc" (OMetric (mkMetric "Accuracy" n 0)) self in
  n ← obj_getattr args "num_classes";
  let self := set "test_f1" (OMetric (mkMetric "F1Score" n 0)) self in
  mret self.

(** [BaseDistiller(a1, ..., an)]: a new instance is passed as [self] in
    front of the arguments of the call *)
Definition construct (actuals : list pyobj) : result (pydict pyobj) :=
  frame ← bind_arguments init_signature (ONew :: actuals);
  init_body frame.

(** The loop of [compute_loss] over [self.adaptors] *)
Fixpoint compute_loss_loop (ads : list Adaptor) (out_t out_s : ModelOutput)
    (mask : option Tensor) (loss_dict : pydict Q) : result (pydict Q) :=
  match ads with
  | [] => mret loss_dict
  | adaptor :: rest =>
      let feature_name := split_head (name adaptor) in
      l ← call adaptor (out_get out_t feature_name)
                       (out_get out_s feature_name) mask;
      compute_loss_loop rest out_t out_s mask
        (set (name adaptor) (w adaptor * l)%Q loss_dict)
  end.

(** [BaseDistiller.compute_loss(self, out_t, out_s, mask)] *)
Definition compute_loss (self : BaseDistiller) (out_t out_s : ModelOutput)
    (mask : option Tensor) : result (pydict Q) :=
  let loss_dict :=
    [("pred:nll", get_loss out_s); ("nll_loss_teacher", get_loss out_t)] in
  compute_loss_loop (adaptors self) out_t out_s mask loss_dict.

(** [BaseDistiller.forward(self, batch)] *)
Definition forward (self : BaseDistiller) (batch : Batch)
    : result (ModelOutput * ModelOutput) :=
  teacher_out ← m_forward (teacher self) batch;
  student_out ← m_forward (student self) batch;
  mret (teacher_out, student_out).

(** [for k, v in loss_dict.items(): self.log(k, v, ...)] *)
Definition log_items (loss_dict : pydict Q) (log : Log) : Log :=
  (log ++ loss_dict)%list.

(** The part of [training_step] after the logging: which terms are dropped
    and the sum of the rest. *)
Definition combine (loss_dict : pydict Q) : result Q :=
  pred ← getitem "pred:nll" loss_dict;
  loss_dict ←
    (if Qeq_bool pred 0 then
       '(_, loss_dict) ← pop "pred:nll" loss_dict;
       '(_, loss_dict) ← pop "nll_loss_teacher" loss_dict;
       mret loss_dict
     else mret loss_dict);
  loss_dict ←
    (if contains "nll_loss_teacher" loss_dict then
       '(_, loss_dict) ← pop "nll_loss_teacher" loss_dict;
       mret loss_dict
     else mret loss_dict);
  mret (py_sum (values loss_dict)).

(** [BaseDistiller.training_step(self, batch, idx)]: the returned loss and
    the log after the step *)
Definition training_step (self : BaseDistiller) (batch : Batch) (idx : nat)
    (log : Log) : result (Q * Log) :=
  '(out_t, out_s) ← forward self batch;
  loss_dict ← compute_loss self out_t out_s (get "attention_mask" batch);
  let log := log_items loss_dict log in
  loss ← combine loss_dict;
  mret (loss, log).

(** [torch.stack(xs).mean()] on scalars; stacking an empty list raises *)
Definition stack_mean (xs : list Q) : result Q :=
  match xs with
  | [] => Raises (RuntimeError "stack expects a non-empty TensorList")
  | _ => mret (py_sum xs / inject_Z (Z.of_nat (length xs)))%Q
  end.

(** [BaseDistiller.validation_epoch_end(self, outputs)]; [outputs] holds the
    ['val_loss'] of every validation step *)
Definition validation_epoch_end (self : BaseDistiller) (outputs : list Q)
    (log : Log) : result Log :=
  val_loss ← stack_mean outputs;
  let log := (log ++ [("val_loss", val_loss)])%list in
  let log := (log ++ [("val_f1", metric_value (f1_s self))])%list in
  let log := (log ++ [("val_acc", metric_value (acc_s self))])%list in
  mret log.

(** *** The checkpoint adapter [HgCkptIO] *)

(** What a checkpoint dictionary holds under a key *)
Inductive ckval : Type :=
| CkModel (m : Model)
| CkStateDict (modules : list Model)
| CkVal (v : pyval).

Abbreviation Checkpoint := (gmap string ckval).

(** A file written by [save_pretrained] records the model it serializes *)
Inductive File : Type :=
| ConfigJson (m : Model)
| WeightsBin (m : Model).

Definition source (f : File) : Model :=
  match f with ConfigJson m => m | WeightsBin m => m end.

Record FileSystem : Type := mkFS {
  dirs : gset string;
  files : gmap string File
}.

(** [os.path.dirname(path)]: the path up to its last slash, without the
    trailing slashes unless it consists of slashes only *)
Fixpoint drop_to_slash (rev_path : list ascii) : list ascii :=
  match rev_path with
  | [] => []
  | c :: rest => if Ascii.eqb c "/"%char then rev_path else drop_to_slash rest
  end.

Fixpoint strip_slashes (rev_head : list ascii) : list ascii :=
  match rev_head with
  | [] => []
  | c :: rest => if Ascii.eqb c "/"%char then strip_slashes rest else rev_head
  end.

Definition dirname (path : string) : string :=
  let head := drop_to_slash (rev (list_ascii_of_string path)) in
  match strip_slashes head with
  | [] => string_of_list_ascii (rev head)
  | stripped => string_of_list_ascii (rev stripped)
  end.

(** [fs.makedirs(d, exist_ok=True)] *)
Definition makedirs (d : string) : Eff FileSystem unit := fun fs =>
  ({| dirs := {[ d ]} ∪ dirs fs; files := files fs |}, Returns tt).

Definition config_path (path : string) : string := path ++ "/config.json".
Definition weights_path (path : string) : string := path ++ "/pytorch_model.bin".

(** [model.save_pretrained(path)] of the model library: refuses a path that
    is a file, creates the directory, writes the configuration and the
    weights of [model] under it *)
Definition save_pretrained (m : Model) (path : string) : Eff FileSystem unit :=
  fun fs =>
  match files fs !! path with
  | Some _ =>
      (fs, Raises (OtherError "AssertionError: path should be a directory"))
  | None =>
      ({| dirs := {[ path ]} ∪ dirs fs;
          files := <[weights_path path := WeightsBin m]>
                     (<[config_path path := ConfigJson m]> (files fs)) |},
       Returns tt)
  end.

(** [checkpoint['student'].save_pretrained]: the entry must be there and be
    a model *)
Definition student_entry (checkpoint : Checkpoint) : result Model :=
  match checkpoint !! "student" with
  | None => Raises (KeyError "student")
  | Some (CkModel m) => Returns m
  | Some _ => Raises (AttributeError "save_pretrained")
  end.

(** [HgCkptIO.save_checkpoint(self, checkpoint, path)] *)
Definition save_checkpoint (checkpoint : Checkpoint) (path : string)
    : Eff FileSystem unit :=
  makedirs (dirname path);;
  m ← lift (student_entry checkpoint);
  save_pretrained m path.

(** The path as the file system addresses it: without its trailing slashes
    (a path of slashes only, the root, becomes the empty prefix) *)
Fixpoint rstrip_slash (path : string) : string :=
  match path with
  | EmptyString => EmptyString
  | String c rest =>
      match rstrip_slash rest with
      | EmptyString =>
          if Ascii.eqb c "/"%char then EmptyString else String c EmptyString
      | stripped => String c stripped
      end
  end.

(** [p] is the stripped path or lies under it *)
Definition at_or_under (stripped p : string) : Prop :=
  p = stripped \/ String.prefix (stripped ++ "/") p = true.

#[global] Instance at_or_under_dec stripped p : Decision (at_or_under stripped p).
Proof. unfold at_or_under. apply _. Defined.

(** [p] is what [path] addresses or lies under it *)
Definition under (path p : string) : Prop :=
  at_or_under (rstrip_slash path) p.

#[global] Instance under_dec path p : Decision (under path p).
Proof. unfold under. apply _. Defined.

(** [fs.exists(path)], on the stripped path: a directory or a file is
    addressed by it *)
Definition fs_exists (fs : FileSystem) (stripped : string) : Prop :=
  Exists (fun p => rstrip_slash p = stripped)
         (elements (dirs fs) ++ (map_to_list (files fs)).*1).

(** [fs.rm(path, recursive=True)], on the stripped path *)
Definition fs_rm (stripped : string) (fs : FileSystem) : FileSystem :=
  {| dirs := filter (fun d => ~ at_or_under stripped d) (dirs fs);
     files := filter (fun pf => ~ at_or_under stripped pf.1) (files fs) |}.

(** [HgCkptIO.remove_checkpoint(self, path)]:
    [if fs.exists(path): fs.rm(path, recursive=True)] *)
Definition remove_checkpoint (path : string) : Eff FileSystem unit := fun fs =>
  let stripped := rstrip_slash path in
  if bool_decide (fs_exists fs stripped) then (fs_rm stripped fs, Returns tt)
  else (fs, Returns tt).

(** [BaseDistiller.on_save_checkpoint(self, checkpoint)] *)
Definition on_save_checkpoint (self : BaseDistiller) (checkpoint : Checkpoint)
    : Checkpoint :=
  <["student" := CkModel (student self)]> checkpoint.

(** The trainer's save: it hands the checkpoint it assembled to the
    module's hook and then to the checkpoint plugin *)
Definition trainer_save (self : BaseDistiller) (checkpoint : Checkpoint)
    (path : string) : Eff FileSystem unit :=
  save_checkpoint (on_save_checkpoint self checkpoint) path.

(** *** Prediction and the attention plot *)

Section Prediction.
(** [torch.argmax(logits, dim=1)] *)
Variable argmax : Tensor -> result Tensor.

(** [BaseDistiller.predict_step(self, batch, idx)]: the predictions and the
    batch, which is mutated in place *)
Definition predict_step (self : BaseDistiller) (batch : Batch) (idx : nat)
    : result (Tensor * Batch) :=
  '(_, batch) ← pop "labels" batch;
  out_s ← m_forward (student self) batch;
  match get "logits" (out_features out_s) with
  | Some logits => pred_s ← argmax logits; mret (pred_s, batch)
  | None => Raises (TypeError "argmax(): argument 'input' must be Tensor")
  end.
End Prediction.

(** The loop of [validation_step] over [enumerate(mask[0])]: the index of
    the first item that is zero, if the loop breaks *)
Fixpoint first_zero_loop (index : nat) (row : list Q) : option nat :=
  match row with
  | [] => None
  | item :: rest =>
      if Qeq_bool item 0 then Some index else first_zero_loop (S index) rest
  end.

(** [first_zero_index] after the loop: it starts at 0 and is assigned only
    when the loop breaks *)
Definition first_zero_index (row : list Q) : nat :=
  match first_zero_loop 0 row with
  | Some index => index
  | None => 0%nat
  end.

(** [axis = [i for i in range(first_zero_index)]] *)
Definition axis (row : list Q) : list nat := seq 0 (first_zero_index row).

(** *** Optimizer parameter groups *)

(** [sub in s] on strings *)
Fixpoint is_substring (sub s : string) : bool :=
  String.prefix sub s
  || match s with
     | EmptyString => false
     | String _ s' => is_substring sub s'
     end.

(** A parameter group: the entries ["params"] and ["weight_decay"] *)
Record ParamGroup : Type := mkGroup {
  group_params : list Tensor;
  group_weight_decay : pyval
}.

Definition no_decay : list string := ["bias"; "LayerNorm.weight"].

(** [any(nd in n for nd in no_decay)] *)
Definition any_no_decay (n : string) : bool :=
  existsb (fun nd => is_substring nd n) no_decay.

(** [optimizer_grouped_parameters] of [configure_optimizers], from the list
    [parameters] the method selected *)
Definition optimizer_grouped_parameters (hparams : Namespace)
    (parameters : list (string * Tensor)) : result (list ParamGroup) :=
  let decayed :=
    map snd (List.filter (fun np => negb (any_no_decay np.1)) parameters) in
  wd ← getattr hparams "weight_decay";
  let not_decayed :=
    map snd (List.filter (fun np => any_no_decay np.1) parameters) in
  mret [ {| group_params := decayed; group_weight_decay := wd |};
         {| group_params := not_decayed; group_weight_decay := VFloat 0 |} ].

Section Optimizers.
(** [torch.optim.AdamW(groups, lr=..., eps=...)] and
    [get_linear_schedule_with_warmup(optimizer, num_training_steps=...,
    num_warmup_steps=...)] of the libraries *)
Variables Optimizer Scheduler : Type.
Variable AdamW : list ParamGroup -> pyval -> pyval -> result Optimizer.
Variable get_linear_schedule_with_warmup :
  Optimizer -> pyval -> pyval -> result Scheduler.

(** The part of [configure_optimizers] the three classes share, after the
    selection of [parameters]; the scheduler is returned with its interval *)
Definition configure_selected (hparams : Namespace)
    (parameters : list (string * Tensor))
    : result (list Optimizer * list (Scheduler * string)) :=
  groups ← optimizer_grouped_parameters hparams parameters;
  lr ← getattr hparams "learning_rate";
  eps ← getattr hparams "eps";
  optimizer ← AdamW groups lr eps;
  steps ← getattr hparams "num_training_steps";
  warmup ← getattr hparams "num_warmup_steps";
  scheduler ← get_linear_schedule_with_warmup optimizer steps warmup;
  mret ([optimizer], [(scheduler, "step")]).

(** [BaseDistiller.configure_optimizers(self)], given
    [self.named_parameters()] *)
Definition configure_optimizers (self : BaseDistiller)
    (named_parameters : list (string * Tensor))
    : result (list Optimizer * list (Scheduler * string)) :=
  let parameters :=
    List.filter (fun np => negb (is_substring "teacher" np.1))
      named_parameters in
  configure_selected (hparams self) parameters.
End Optimizers.

End Distiller.

(** ** The two ablation variants *)

Module InterDistiller.
Import Distiller.

(** The part of [InterDistiller.training_step] after the logging *)
Definition combine (loss_dict : pydict Q) : result Q :=
  pred ← getitem "pred:nll" loss_dict;
  loss_dict ←
    (if Qeq_bool pred 0 then
       '(_, loss_dict) ← pop "pred:nll" loss_dict;
       '(_, loss_dict) ← pop "nll_loss_teacher" loss_dict;
       mret loss_dict
     else if contains "pred:nll" loss_dict then
       '(_, loss_dict) ← pop "pred:nll" loss_dict;
       mret loss_dict
     else mret loss_dict);
  loss_dict ←
    (if contains "nll_loss_teacher" loss_dict then
       '(_, loss_dict) ← pop "nll_loss_teacher" loss_dict;
       mret loss_dict
     else mret loss_dict);
  mret (py_sum (values loss_dict)).

(** [InterDistiller.training_step(self, batch, idx)] *)
Definition training_step (self : BaseDistiller) (batch : Batch) (idx : nat)
    (log : Log) : result (Q * Log) :=
  '(out_t, out_s) ← forward self batch;
  loss_dict ← compute_loss self out_t out_s (get "attention_mask" batch);
  let log := log_items loss_dict log in
  loss ← combine loss_dict;
  mret (loss, log).

End InterDistiller.

Module PredDistiller.
Import Distiller.

(** [PredDistiller.configure_optimizers(self)], given
    [self.named_parameters()] *)
Definition configure_optimizers {Optimizer Scheduler : Type}
    (AdamW : list ParamGroup -> pyval -> pyval -> result Optimizer)
    (get_linear_schedule_with_warmup :
       Optimizer -> pyval -> pyval -> result Scheduler)
    (self : BaseDistiller) (named_parameters : list (string * Tensor))
    : result (list Optimizer * list (Scheduler * string)) :=
  let parameters :=
    List.filter (fun np => is_substring "classifier" np.1) named_parameters in
  configure_selected Optimizer Scheduler AdamW
    get_linear_schedule_with_warmup (hparams self) parameters.

End PredDistiller.

(** * helper/pretrainer.py *)

Module Pretrainer.

Definition Log : Type := list (string * float).

Section Externals.
(** [torch.stack(xs).mean()] converted to a Python float, and [math.exp] of
    the Python library: a float, or an exception. *)
Variable stack_mean : list float -> result float.
Variable math_exp : float -> result float.

(** [try: perplexity = math.exp(val_loss)
     except OverflowError: perplexity = float("inf")] *)
Definition perplexity (val_loss : float) : result float :=
  match math_exp val_loss with
  | Returns v => Returns v
  | Raises OverflowError => Returns infinity
  | Raises e => Raises e
  end.

(** [Pretrainer.validation_epoch_end(self, outputs)] *)
Definition validation_epoch_end (outputs : list float) (log : Log)
    : result Log :=
  val_loss ← stack_mean outputs;
  p ← perplexity val_loss;
  mret (log ++ [("perplexity", p)])%list.
End Externals.


(** *** The checkpoint adapter of this file and the module's hook *)

(** [checkpoint['hg_model'].save_pretrained]: the entry must be there and be
    a model *)
Definition hg_model_entry (checkpoint : Distiller.Checkpoint) : result Model :=
  match checkpoint !! "hg_model" with
  | None => Raises (KeyError "hg_model")
  | Some (Distiller.CkModel m) => Returns m
  | Some _ => Raises (AttributeError "save_pretrained")
  end.

(** [HgCkptIO.save_checkpoint(self, checkpoint, path)] of
    [helper/pretrainer.py] *)
Definition save_checkpoint (checkpoint : Distiller.Checkpoint) (path : string)
    : Eff Distiller.FileSystem unit :=
  Distiller.makedirs (Distiller.dirname path);;
  m ← lift (hg_model_entry checkpoint);
  Distiller.save_pretrained m path.

(** [Pretrainer.on_save_checkpoint(self, checkpoint)], given [self.model] *)
Definition on_save_checkpoint (model : Model)
    (checkpoint : Distiller.Checkpoint) : Distiller.Checkpoint :=
  <["hg_model" := Distiller.CkModel model]> checkpoint.

(** [Pretrainer.configure_optimizers(self)], given [self.hparams] and
    [self.named_parameters()] *)
Definition configure_optimizers {Optimizer Scheduler : Type}
    (AdamW : list Distiller.ParamGroup -> pyval -> pyval -> result Optimizer)
    (get_linear_schedule_with_warmup :
       Optimizer -> pyval -> pyval -> result Scheduler)
    (hparams : Namespace) (named_parameters : list (string * Tensor))
    : result (list Optimizer * list (Scheduler * string)) :=
  let parameters := named_parameters in
  Distiller.configure_selected Optimizer Scheduler AdamW
    get_linear_schedule_with_warmup hparams parameters.

End Pretrainer.

(** * distillation_2steps.py *)

Module Script.

Import Distiller.

(** ** Argument parsing *)

(** One [parser.add_argument] call: the attribute, its default, whether it
    is required *)
Record Argument : Type := mkArg {
  dest : string;
  default : pyval;
  required : bool
}.

(** The arguments [get_args] declares itself *)
Definition script_arguments : list Argument :=
  [ mkArg "project" VNone false;
    mkArg "exp" VNone false;
    mkArg "teacher_model" (VStr "bert-base-uncased") false;
    mkArg "teacher_model_pt" VNone true;
    mkArg "student_model" VNone false;
    mkArg "hidden_size" (VInt 768) false;
    mkArg "hidden_layers" (VInt 12) false;
    mkArg "atten_heads" (VInt 12) false;
    mkArg "trn_dataset" VNone true;
    mkArg "val_dataset" VNone true ].

(** [BaseDistiller.add_model_specific_args] *)
Definition distiller_arguments : list Argument :=
  [ mkArg "weight_decay" (VFloat (5 # 100000)) false;
    mkArg "epochs" (VInt 5) false;
    mkArg "learning_rate" (VFloat (1 # 10000)) false;
    mkArg "eps" (VFloat (1 # 100000000)) false;
    mkArg "num_classes" (VInt 2) false;
    mkArg "plot_attentions" (VBool true) false;
    mkArg "temperature" (VFloat 4) false;
    mkArg "flood" (VFloat (7 # 100)) false ].

(** The parser of [get_args]; [data_arguments] are those that
    [ClfDataModule.add_model_specific_args] adds, [class_arguments] those
    that [BaseDistiller.add_model_specific_args] adds *)
Definition parser (data_arguments class_arguments : list Argument)
    : list Argument :=
  (script_arguments ++ data_arguments ++ class_arguments)%list.

Definition defaults (spec : list Argument) : Namespace :=
  list_to_map (map (fun a => (dest a, default a)) spec).

Definition supplied (config : list (string * pyval)) (a : Argument) : bool :=
  bool_decide (dest a ∈ map fst config).

Definition declared (spec : list Argument) (key : string) : bool :=
  bool_decide (key ∈ map dest spec).

(** [parser.parse_args(serialize_config(config))]: an undeclared option or a
    missing required one ends the program, a supplied value replaces the
    default *)
Definition parse_args (spec : list Argument) (config : list (string * pyval))
    : result Namespace :=
  if negb (forallb (declared spec) (map fst config)) then
    Raises (OtherError "SystemExit: unrecognized arguments")
  else if negb (forallb (fun a => implb (required a) (supplied config a)) spec)
  then Raises (OtherError "SystemExit: required arguments")
  else mret (list_to_map config ∪ defaults spec).

(** [get_args(yaml_path)], given the content of the YAML file *)
Definition get_args (data_arguments class_arguments : list Argument)
    (config : list (string * pyval)) : result Namespace :=
  parse_args (parser data_arguments class_arguments) config.

(** ** Datasets *)

Record Dataset : Type := mkDataset {
  column_names : list string;
  num_rows : nat
}.

Abbreviation DatasetDict := (gmap string Dataset).

Definition rename_column (old new : string) (ds : Dataset) : Dataset :=
  {| column_names :=
       map (fun c => if String.eqb c old then new else c) (column_names ds);
     num_rows := num_rows ds |}.

Definition remove_columns (cols : list string) (ds : Dataset) : Dataset :=
  {| column_names :=
       filter (fun c => c ∉ cols) (column_names ds);
     num_rows := num_rows ds |}.

(** [concatenate_datasets([a, b])]: the rows of both, under the columns of
    either (those of [a] first) *)
Definition concatenate_datasets (a b : Dataset) : Dataset :=
  {| column_names :=
       (column_names a
        ++ filter (fun c => c ∉ column_names a) (column_names b))%list;
     num_rows := num_rows a + num_rows b |}.

(** [dd[split]] *)
Definition split (dd : DatasetDict) (s : string) : result Dataset :=
  match dd !! s with
  | Some ds => Returns ds
  | None => Raises (KeyError s)
  end.

(** [v == 'literal'] *)
Definition is_str (v : pyval) (s : string) : bool :=
  match v with
  | VStr s' => String.eqb s' s
  | _ => false
  end.

(** Reading a local variable that may not have been assigned *)
Definition read_local {A : Type} (var : string) (x : option A) : result A :=
  match x with
  | Some v => Returns v
  | None => Raises (UnboundLocalError var)
  end.

(** [get_dataset_obj(args)], given the outcome of the two [load_dataset]
    calls. The namespace is mutated in place, so it is returned with the
    dataset. *)
Definition get_dataset_obj (load_sst2 load_tweet : result DatasetDict)
    (args : Namespace) : result (DatasetDict * Namespace) :=
  glue_sst2 ← load_sst2;
  let sst2 : DatasetDict := rename_column "sentence" "text" <$> glue_sst2 in
  tweet ← load_tweet;
  trn ← getattr args "trn_dataset";
  train ←
    (if is_str trn "sst2" then
       t ← split sst2 "train"; mret (Some t)
     else if is_str trn "tweet" then
       t ← split tweet "train"; mret (Some t)
     else if is_str trn "sst2-tweet" then
       a ← split (remove_columns ["idx"; "label"] <$> sst2) "train";
       b ← split (remove_columns ["label"] <$> tweet) "train";
       mret (Some (concatenate_datasets a b))
     else mret None);
  val ← getattr args "val_dataset";
  '(dataset, args) ←
    (if is_str val "sst2" then
       let args := setattr args "num_classes" (VInt 2) in
       train ← read_local "train" train;
       let sst2 : DatasetDict := <["train" := train]> sst2 in
       mret (Some sst2, args)
     else if is_str val "tweet" then
       let args := setattr args "num_clases" (VInt 3) in
       train ← read_local "train" train;
       let tweet : DatasetDict := <["train" := train]> tweet in
       mret (Some tweet, args)
     else mret (None, args));
  dataset ← read_local "dataset" dataset;
  mret (dataset, args).

(** ** Models *)

(** [if v:] *)
Definition truthy (v : pyval) : bool :=
  match v with
  | VNone => false
  | VInt z => negb (z =? 0)%Z
  | VFloat q => negb (Qeq_bool q 0)
  | VStr s => negb (String.eqb s "")
  | VBool b => b
  end.

Definition with_num_labels (n : pyval) (c : Config) : Config :=
  {| hidden_size := hidden_size c;
     num_hidden_layers := num_hidden_layers c;
     num_attention_heads := num_attention_heads c;
     num_labels := n;
     output_attentions := output_attentions c;
     output_hidden_states := output_hidden_states c |}.

(** [model.config.output_attentions = True;
     model.config.output_hidden_states = True] *)
Definition with_all_outputs (m : Model) : Model :=
  {| m_name := m_name m;
     m_config :=
       {| hidden_size := hidden_size (m_config m);
          num_hidden_layers := num_hidden_layers (m_config m);
          num_attention_heads := num_attention_heads (m_config m);
          num_labels := num_labels (m_config m);
          output_attentions := true;
          output_hidden_states := true |};
     m_forward := m_forward m |}.

Section Hub.
(** The pretrained models that can be loaded by name, and the forward pass
    of a freshly initialised BERT classifier of a given configuration *)
Variable hub : string -> option Model.
Variable bert_forward : Config -> Batch -> result ModelOutput.

(** [AutoModelForSequenceClassification.from_pretrained(name,
    num_labels=n)] *)
Definition from_pretrained (model_name : pyval) (n : pyval) : result Model :=
  match model_name with
  | VStr s =>
      match hub s with
      | Some m =>
          mret {| m_name := m_name m;
                  m_config := with_num_labels n (m_config m);
                  m_forward := m_forward m |}
      | None => Raises (OtherError "OSError: no such model")
      end
  | _ => Raises (OtherError "OSError: no such model")
  end.

(** [BertForSequenceClassification(BertConfig(...))] *)
Definition bert_for_sequence_classification (c : Config) : Model :=
  {| m_name := "bert"; m_config := c; m_forward := bert_forward c |}.

(** [get_teacher_and_student(args)] *)
Definition get_teacher_and_student (args : Namespace)
    : result (Model * Model) :=
  student_model ← getattr args "student_model";
  student ←
    (if truthy student_model then
       n ← getattr args "num_classes";
       from_pretrained student_model n
     else
       hs ← getattr args "hidden_size";
       hl ← getattr args "hidden_layers";
       ah ← getattr args "atten_heads";
       n ← getattr args "num_classes";
       let config :=
         {| hidden_size := hs;
            num_hidden_layers := hl;
            num_attention_heads := ah;
            num_labels := n;
            output_attentions := false;
            output_hidden_states := false |} in
       mret (bert_for_sequence_classification config));
  teacher_model ← getattr args "teacher_model";
  n ← getattr args "num_classes";
  teacher ← from_pretrained teacher_model n;
  mret (with_all_outputs teacher, with_all_outputs student).
End Hub.

(** ** The two training runs *)

Record EarlyStopping : Type := mkEarlyStopping {
  es_mode : string;
  es_patience : nat;
  es_min_delta : Q;
  es_monitor : string
}.

(** The callback of the second trainer *)
Definition early_stopping : EarlyStopping :=
  {| es_mode := "min";
     es_patience := 6;
     es_min_delta := 1 # 100;
     es_monitor := "val_nll_loss" |}.

(** A distiller class as the script uses it: the options its
    [add_model_specific_args] declares, and its constructor *)
Record DistillerClass : Type := mkClass {
  cls_arguments : list Argument;
  cls_new : list pyobj -> result (pydict pyobj)
}.

(** The class [BaseDistiller] of helper/distiller.py *)
Definition helper_BaseDistiller : DistillerClass :=
  {| cls_arguments := distiller_arguments;
     cls_new := construct |}.

(** What a run of the script does outside of its own code. [imports] are
    the import statements of lines 1 to 18; [base_distiller] is the class the
    name [BaseDistiller] is bound to by
    [from model.distiller import BaseDistiller]: the module [model.distiller]
    is not among the sources, so the binding is left to the run. *)
Record World : Type := mkWorld {
  imports : result unit;
  base_distiller : DistillerClass;
  yaml_config : result (list (string * pyval));
  data_arguments : list Argument;
  wandb_logger : pyval -> pyval -> result unit;
  load_sst2 : result DatasetDict;
  load_tweet : result DatasetDict;
  data_module : DatasetDict -> Namespace -> result unit;
  hub : string -> option Model;
  bert_forward : Config -> Batch -> result ModelOutput;
  attn_adaptor : result Adaptor;
  hidn_adaptor : result Adaptor;
  new_trainer : list EarlyStopping -> result unit;
  fit : list EarlyStopping -> pydict pyobj -> result (pydict pyobj)
}.

Inductive event : Type :=
| EvSeed (seed : Z)
| EvFit (callbacks : list EarlyStopping).

(** A run: the events so far, and a value or the exception that ended it *)
Abbreviation Run := (Eff (list event)).

Definition emit (e : event) : Run unit :=
  fun tr => ((tr ++ [e])%list, Returns tt).

(** [trainer.fit(distiller, dm)] *)
Definition trainer_fit (w : World) (callbacks : list EarlyStopping)
    (distiller : pydict pyobj) : Run (pydict pyobj) :=
  emit (EvFit callbacks);;
  lift (fit w callbacks distiller).

(** The body of [if __name__ == '__main__'] *)
Definition main (w : World) : Run unit :=
  emit (EvSeed 2022);;
  config ← lift (yaml_config w);
  args ← lift (get_args (data_arguments w)
                 (cls_arguments (base_distiller w)) config);
  project ← lift (getattr args "project");
  exp ← lift (getattr args "exp");
  wandb ← lift (wandb_logger w project exp);
  '(dataset, args) ← lift (get_dataset_obj (load_sst2 w) (load_tweet w) args);
  dm ← lift (data_module w dataset args);
  '(teacher, student) ←
    lift (get_teacher_and_student (hub w) (bert_forward w) args);
  attn_adaptor ← lift (attn_adaptor w);
  hidn_adaptor ← lift (hidn_adaptor w);
  distiller ← lift (cls_new (base_distiller w)
                      [OModel teacher; OModel student; ONamespace args;
                       OAdaptor attn_adaptor; OAdaptor hidn_adaptor]);
  trainer ← lift (new_trainer w []);
  distiller ← trainer_fit w [] distiller;
  teacher_model_pt ← lift (getattr args "teacher_model_pt");
  n ← lift (getattr args "num_classes");
  teacher ← lift (from_pretrained (hub w) teacher_model_pt n);
  let teacher := with_all_outputs teacher in
  student ← lift (getitem "student" distiller);
  distiller ← lift (cls_new (base_distiller w)
                      [OModel teacher; student; ONamespace args;
                       OAdaptor attn_adaptor; OAdaptor hidn_adaptor]);
  trainer ← lift (new_trainer w [early_stopping]);
  _ ← trainer_fit w [early_stopping] distiller;
  mret tt.

(** A run of the script: the imports, then the main block *)
Definition script (w : World) : Run unit :=
  lift (imports w);;
  main w.

End Script.

(** * The loss dictionary as an object *)

Module Store.
Import Distiller.

(** The dictionaries of a run, by address *)
Abbreviation Heap := (gmap nat (pydict Q)).

(** A dictionary display [{...}]: a new object at an unused address *)
Definition new_dict (d : pydict Q) : Eff Heap nat :=
  fun h => let r := fresh (dom h) in (<[r := d]> h, Returns r).

(** The dictionary a reference points to *)
Definition deref (r : nat) : Eff Heap (pydict Q) :=
  fun h =>
    match h !! r with
    | Some d => (h, Returns d)
    | None => (h, Raises (RuntimeError "dangling reference"))
    end.

(** The object at [r] becomes [d] *)
Definition update (r : nat) (d : pydict Q) : Eff Heap unit :=
  fun h => (<[r := d]> h, Returns tt).

(** [d[k] = v], in place *)
Definition setitem (r : nat) (k : string) (v : Q) : Eff Heap unit :=
  d ← deref r;
  update r (set k v d).

(** [d.pop(k)], in place *)
Definition popitem (r : nat) (k : string) : Eff Heap Q :=
  d ← deref r;
  '(v, d) ← lift (pop k d);
  update r d;;
  mret v.

(** The return of the frame that holds the only reference to the object *)
Definition release (r : nat) : Eff Heap unit :=
  fun h => (delete r h, Returns tt).

(** The loop of [compute_loss] on the dictionary behind [loss_dict] *)
Fixpoint compute_loss_loop (ads : list Adaptor) (out_t out_s : ModelOutput)
    (mask : option Tensor) (loss_dict : nat) : Eff Heap unit :=
  match ads with
  | [] => mret tt
  | adaptor :: rest =>
      let feature_name := split_head (name adaptor) in
      l ← lift (call adaptor (out_get out_t feature_name)
                             (out_get out_s feature_name) mask);
      setitem loss_dict (name adaptor) (w adaptor * l)%Q;;
      compute_loss_loop rest out_t out_s mask loss_dict
  end.

(** [compute_loss]: the reference to the dictionary it has built *)
Definition compute_loss (self : BaseDistiller) (out_t out_s : ModelOutput)
    (mask : option Tensor) : Eff Heap nat :=
  loss_dict ← new_dict [("pred:nll", get_loss out_s);
                        ("nll_loss_teacher", get_loss out_t)];
  compute_loss_loop (adaptors self) out_t out_s mask loss_dict;;
  mret loss_dict.

(** [training_step]: [loss_dict] is a local variable, the dictionary is
    passed to no call and stored in no attribute ([self.log] takes a key and
    a value), so the return of the step releases it. *)
Definition training_step (self : BaseDistiller) (batch : Batch) (idx : nat)
    (log : Log) : Eff Heap (Q * Log) :=
  '(out_t, out_s) ← lift (forward self batch);
  loss_dict ← compute_loss self out_t out_s (get "attention_mask" batch);
  items ← deref loss_dict;
  let log := log_items items log in
  d ← deref loss_dict;
  pred ← lift (getitem "pred:nll" d);
  (if Qeq_bool pred 0 then
     popitem loss_dict "pred:nll";;
     popitem loss_dict "nll_loss_teacher";;
     mret tt
   else mret tt);;
  d ← deref loss_dict;
  (if contains "nll_loss_teacher" d then
     popitem loss_dict "nll_loss_teacher";;
     mret tt
   else mret tt);;
  d ← deref loss_dict;
  release loss_dict;;
  mret (py_sum (values d), log).

End Store.

(** * The values of the loss dictionary as floating-point numbers *)

Module FloatLoss.

(** An adaptor on the outputs at hand: its name, its weight and the loss it
    returns, as the tensors hold them *)
Record Adaptor : Type := mkAdaptor {
  name : string;
  w : float;
  loss : float
}.

(** [compute_loss]: the two fixed entries, then
    [loss_dict[adaptor.name] = adaptor.w * adaptor(...)] for every adaptor *)
Definition compute_loss (adaptors : list Adaptor) (loss_t loss_s : float)
    : pydict float :=
  fold_left (fun loss_dict adaptor =>
               set (name adaptor) (w adaptor * loss adaptor)%float loss_dict)
            adaptors
            [("pred:nll", loss_s); ("nll_loss_teacher", loss_t)].

End FloatLoss.

(** * Vocabulary of the statements *)

Section LossVocabulary.
Import Distiller.

(** The loss adaptor [a] computes on the two outputs is [l] *)
Definition adaptor_loss (out_t out_s : ModelOutput) (mask : option Tensor)
    (a : Adaptor) (l : Q) : Prop :=
  call a (out_get out_t (split_head (name a)))
         (out_get out_s (split_head (name a))) mask = Returns l.

Definition adaptor_losses (out_t out_s : ModelOutput) (mask : option Tensor)
    (ads : list Adaptor) (ls : list Q) : Prop :=
  Forall2 (adaptor_loss out_t out_s mask) ads ls.

(** Every adaptor's name with its loss multiplied by its weight *)
Definition weighted (ads : list Adaptor) (ls : list Q) : pydict Q :=
  zip_with (fun a l => (name a, (w a * l)%Q)) ads ls.

(** The adaptor names are pairwise distinct and differ from the two fixed
    keys *)
Definition well_named (ads : list Adaptor) : Prop :=
  NoDup (["pred:nll"; "nll_loss_teacher"] ++ map name ads)%list.

(** The terms [xs] added one after the other, from the left, to [acc]:
    [((acc + x1) + x2) + ...] *)
Fixpoint added_to (acc : Q) (xs : list Q) : Q :=
  match xs with
  | [] => acc
  | x :: rest => added_to (acc + x)%Q rest
  end.

(** The sum of the terms [xs] in their order, starting from 0 *)
Definition sum_of (xs : list Q) : Q := added_to 0 xs.
End LossVocabulary.

Section CheckpointVocabulary.
Import Distiller.

(** File [f] at path [p] is in [fs'] and was not there, or not with this
    content, in [fs] *)
Definition written (fs fs' : FileSystem) (p : string) (f : File) : Prop :=
  files fs' !! p = Some f /\ files fs !! p <> Some f.
End CheckpointVocabulary.

Section ScriptVocabulary.
Import Script.

(** The training-set names [get_dataset_obj] has a branch for *)
Definition valid_trn (v : pyval) : bool :=
  is_str v "sst2" || is_str v "tweet" || is_str v "sst2-tweet".

(** The validation-set names [get_dataset_obj] has a branch for *)
Definition valid_val (v : pyval) : bool :=
  is_str v "sst2" || is_str v "tweet".

(** Every split has the columns [get_dataset_obj] renames or removes: the
    case in which the [datasets] calls are defined *)
Definition columns_present (sst2 tweet : DatasetDict) : Prop :=
  map_Forall (fun _ ds => ("sentence" ∈ column_names ds)
                          /\ ("text" ∉ column_names ds)
                          /\ ("idx" ∈ column_names ds)
                          /\ ("label" ∈ column_names ds)) sst2
  /\ map_Forall (fun _ ds => "label" ∈ column_names ds) tweet.

(** The message of the exception a call with six positional arguments,
    [self] included, gets from [__init__] *)
Definition too_many_arguments : exn :=
  TypeError "__init__() takes 5 positional arguments but 6 were given".

(** The names [BaseDistiller.validation_epoch_end] logs under *)
Definition validation_keys : list string := ["val_loss"; "val_f1"; "val_acc"].
End ScriptVocabulary.

Section FeatureVocabulary.
(** The string has no colon *)
Definition colon_free (s : string) : Prop :=
  ":"%char ∉ list_ascii_of_string s.
End FeatureVocabulary.

(** * Sample inputs *)

Section Samples.
Import Distiller.

Definition sample_config : Config :=
  {| hidden_size := VInt 128;
     num_hidden_layers := VInt 2;
     num_attention_heads := VInt 2;
     num_labels := VInt 2;
     output_attentions := true;
     output_hidden_states := true |}.

(** A model whose forward pass reports the loss [l] *)
Definition sample_model (nm : string) (l : option Q) : Model :=
  {| m_name := nm;
     m_config := sample_config;
     m_forward := fun _ => Returns {| out_loss := l; out_features := [] |} |}.

(** An adaptor of weight [wt] whose loss is [l] *)
Definition sample_adaptor (nm : string) (wt l : Q) : Adaptor :=
  {| name := nm; w := wt; call := fun _ _ _ => Returns l |}.

Definition sample_distiller (teacher_loss student_loss : option Q)
    (ads : list Adaptor) : BaseDistiller :=
  {| hparams := ∅;
     teacher := sample_model "teacher" teacher_loss;
     student := sample_model "student" student_loss;
     adaptors := ads;
     acc_s := mkMetric "Accuracy" (VInt 2) 0;
     f1_s := mkMetric "F1Score" (VInt 2) 0;
     test_acc := mkMetric "Accuracy" (VInt 2) 0;
     test_f1 := mkMetric "F1Score" (VInt 2) 0 |}.
(** A labelled batch: both models report a loss, one adaptor of weight
    1/2 reports the loss 4 *)
Definition labelled : BaseDistiller :=
  sample_distiller (Some 2%Q) (Some 1%Q)
    [sample_adaptor "attentions:mse" (1 # 2) 4].

(** No labels: the student reports no loss *)
Definition unlabelled : BaseDistiller :=
  sample_distiller (Some 2%Q) None
    [sample_adaptor "attentions:mse" (1 # 2) 4].

(** Every loss is zero *)
Definition all_zero : BaseDistiller :=
  sample_distiller (Some 0%Q) None
    [sample_adaptor "attentions:mse" (1 # 2) 0].

(** An adaptor that returns the first number of the student's feature *)
Definition first_of_student (nm : string) (wt : Q) : Adaptor :=
  {| name := nm; w := wt;
     call := fun t s _ =>
       match s with
       | Some {| data := x :: _ |} => Returns x
       | _ => Raises (TypeError "no feature")
       end |}.

(** An adaptor with a negative weight *)
Definition negative_weight : BaseDistiller :=
  sample_distiller (Some 2%Q) (Some 1%Q)
    [sample_adaptor "attentions:mse" (-1) 4].
End Samples.

Section ScriptSamples.
Import Distiller Script.

Definition sample_sst2 : DatasetDict :=
  {[ "train" := mkDataset ["sentence"; "label"; "idx"] 10;
     "validation" := mkDataset ["sentence"; "label"; "idx"] 2 ]}.

Definition sample_tweet : DatasetDict :=
  {[ "train" := mkDataset ["text"; "label"] 7;
     "validation" := mkDataset ["text"; "label"] 3 ]}.

(** The namespace [get_args] parses from a configuration that gives the
    three required options *)
Definition sample_namespace (trn val : string) : Namespace :=
  list_to_map [("teacher_model_pt", VStr "teacher-pt");
               ("trn_dataset", VStr trn);
               ("val_dataset", VStr val)]
  ∪ defaults (parser [] distiller_arguments).

Definition sample_hub (s : string) : option Model :=
  if String.eqb s "bert-base-uncased"
  then Some (sample_model "bert-base-uncased" None)
  else None.

Definition sample_bert (c : Config) (b : Batch) : result ModelOutput :=
  Returns {| out_loss := None; out_features := [] |}.

Definition sample_world : World :=
  {| imports := Returns tt;
     base_distiller := helper_BaseDistiller;
     wandb_logger := fun _ _ => Returns tt;
     new_trainer := fun _ => Returns tt;
     yaml_config := Returns [("teacher_model_pt", VStr "teacher-pt");
                             ("trn_dataset", VStr "sst2");
                             ("val_dataset", VStr "sst2")];
     data_arguments := [];
     load_sst2 := Returns sample_sst2;
     load_tweet := Returns sample_tweet;
     data_module := fun _ _ => Returns tt;
     hub := sample_hub;
     bert_forward := sample_bert;
     attn_adaptor := Returns (sample_adaptor "attentions:minilm" 1 0);
     hidn_adaptor := Returns (sample_adaptor "hidden_states:reln" 1 0);
     fit := fun _ d => Returns d |}.
End ScriptSamples.

Section PerplexitySamples.
(** The mean of a one-element list *)
Definition sample_mean (xs : list float) : result float :=
  match xs with
  | [x] => Returns x
  | _ => Raises (RuntimeError "not tabulated")
  end.

(** Two values of [math.exp]: [exp(0.0)] is [1.0], [exp(1000.0)]
    overflows *)
Definition sample_exp (x : float) : result float :=
  if (x =? 0)%float then Returns 1%float
  else if (x =? 1000)%float then Raises OverflowError
  else Raises (OtherError "not tabulated").
End PerplexitySamples.

Section OptimizerSamples.
Import Distiller.

(** The named parameters of a distiller: the teacher's and the student's *)
Definition sample_named_parameters : list (string * Tensor) :=
  [ ("teacher.bert.encoder.weight", scalar_tensor 1);
    ("teacher.classifier.weight", scalar_tensor 2);
    ("student.bert.encoder.weight", scalar_tensor 3);
    ("student.bert.LayerNorm.weight", scalar_tensor 4);
    ("student.classifier.bias", scalar_tensor 5);
    ("student.classifier.weight", scalar_tensor 6) ].

(** Hyperparameters with the five attributes [configure_optimizers] reads *)
Definition sample_hparams : Namespace :=
  list_to_map [ ("weight_decay", VFloat (5 # 100000));
                ("learning_rate", VFloat (1 # 10000));
                ("eps", VFloat (1 # 100000000));
                ("num_training_steps", VInt 1000);
                ("num_warmup_steps", VInt 100) ].

(** An optimizer and a scheduler that record what they were built from *)
Definition recording_AdamW (groups : list ParamGroup) (lr eps : pyval)
    : result (list ParamGroup * pyval * pyval) :=
  Returns (groups, lr, eps).

Definition recording_schedule (optimizer : list ParamGroup * pyval * pyval)
    (steps warmup : pyval)
    : result (list ParamGroup * pyval * pyval * pyval * pyval) :=
  Returns (optimizer, steps, warmup).

Definition sample_optimizing : BaseDistiller :=
  {| hparams := sample_hparams;
     teacher := sample_model "teacher" None;
     student := sample_model "student" None;
     adaptors := [];
     acc_s := mkMetric "Accuracy" (VInt 2) 0;
     f1_s := mkMetric "F1Score" (VInt 2) 0;
     test_acc := mkMetric "Accuracy" (VInt 2) 0;
     test_f1 := mkMetric "F1Score" (VInt 2) 0 |}.
End OptimizerSamples.

(** * Facts about insertion-ordered dictionaries *)

Section PyDictFacts.
Context {V : Type}.
Implicit Types (d : pydict V) (k : string) (v : V).

Lemma get_None_keys k d : get k d = None <-> k ∉ keys d.
Proof.
  induction d as [|[k' v'] d IH]; simpl.
  - split; [intros _; apply not_elem_of_nil | done].
  - destruct (String.eqb_spec k k') as [->|Hne].
    + split; [done | intros H; exfalso; apply H; left].
    + rewrite IH, not_elem_of_cons. tauto.
Qed.

Lemma get_Some_In k v d : get k d = Some v -> (k, v) ∈ d.
Proof.
  induction d as [|[k' v'] d IH]; simpl; [done|].
  destruct (String.eqb_spec k k') as [->|Hne].
  - intros [= ->]. left.
  - intros H. right. auto.
Qed.

Lemma get_set_eq k v d : get k (set k v d) = Some v.
Proof.
  induction d as [|[k' v'] d IH]; simpl.
  - by rewrite String.eqb_refl.
  - destruct (String.eqb_spec k k') as [->|Hne]; simpl.
    + by rewrite String.eqb_refl.
    + destruct (String.eqb_spec k k'); [done | apply IH].
Qed.

Lemma get_set_ne k k' v d : k <> k' -> get k' (set k v d) = get k' d.
Proof.
  intros Hne. induction d as [|[k0 v0] d IH]; simpl.
  - destruct (String.eqb_spec k' k); [congruence | done].
  - destruct (String.eqb_spec k k0) as [->|Hk]; simpl.
    + destruct (String.eqb_spec k' k0); [congruence | done].
    + destruct (String.eqb_spec k' k0); [done | apply IH].
Qed.

(** A new key goes to the end *)
Lemma set_fresh k v d : get k d = None -> set k v d = (d ++ [(k, v)])%list.
Proof.
  induction d as [|[k' v'] d IH]; simpl; [done|].
  destruct (String.eqb_spec k k'); [done|].
  intros H. by rewrite IH.
Qed.

(** Assigning to a key that is present keeps the keys and their order *)
Lemma keys_set_present k v d : get k d <> None -> keys (set k v d) = keys d.
Proof.
  induction d as [|[k' v'] d IH]; simpl; [done|].
  destruct (String.eqb_spec k k') as [->|Hne]; simpl; [done|].
  intros H. f_equal. by apply IH.
Qed.

Lemma elem_of_set k v d kv : kv ∈ set k v d -> kv = (k, v) \/ kv ∈ d.
Proof.
  induction d as [|[k' v'] d IH]; simpl.
  - rewrite list_elem_of_singleton. auto.
  - destruct (String.eqb_spec k k') as [->|Hne]; rewrite !elem_of_cons.
    + intros [->|H]; auto.
    + intros [->|H]; [auto|]. destruct (IH H); auto.
Qed.

Lemma elem_of_keys_set k v d k' : k' ∈ keys (set k v d) <-> k' = k \/ k' ∈ keys d.
Proof.
  unfold keys. induction d as [|[k0 v0] d IH]; simpl.
  - rewrite list_elem_of_singleton, elem_of_nil. tauto.
  - destruct (String.eqb_spec k k0) as [->|Hne]; simpl;
      rewrite !elem_of_cons; [tauto | rewrite IH; tauto].
Qed.

(** Keys stay unique: the invariant of a dictionary *)
Lemma NoDup_keys_set k v d : NoDup (keys d) -> NoDup (keys (set k v d)).
Proof.
  unfold keys. induction d as [|[k' v'] d IH]; simpl.
  - intros _. apply NoDup_singleton.
  - rewrite NoDup_cons. intros [Hnin Hnd].
    destruct (String.eqb_spec k k') as [->|Hne]; simpl.
    + by apply NoDup_cons.
    + apply NoDup_cons. split; [|auto].
      intros Hin. apply (elem_of_keys_set k v d k') in Hin.
      destruct Hin as [->|Hin]; done.
Qed.

Lemma get_remove_ne k k' d : k <> k' -> get k' (remove k d) = get k' d.
Proof.
  intros Hne. induction d as [|[k0 v0] d IH]; simpl; [done|].
  destruct (String.eqb_spec k k0) as [->|Hk]; simpl.
  - destruct (String.eqb_spec k' k0); [congruence | done].
  - destruct (String.eqb_spec k' k0); [done | apply IH].
Qed.

Lemma elem_of_remove k d kv : kv ∈ remove k d -> kv ∈ d.
Proof.
  induction d as [|[k0 v0] d IH]; simpl; [done|].
  destruct (String.eqb_spec k k0) as [->|Hk]; rewrite ?elem_of_cons.
  - auto.
  - intros [->|H]; auto.
Qed.

Lemma NoDup_keys_remove k d : NoDup (keys d) -> NoDup (keys (remove k d)).
Proof.
  unfold keys. induction d as [|[k0 v0] d IH]; simpl; [done|].
  rewrite NoDup_cons. intros [Hnin Hnd].
  destruct (String.eqb_spec k k0) as [->|Hk]; simpl; [done|].
  apply NoDup_cons. split; [|auto].
  intros Hin. apply Hnin.
  apply list_elem_of_fmap in Hin as [[k1 v1] [-> Hin]].
  apply list_elem_of_fmap. exists (k1, v1). split; [done|].
  by eapply elem_of_remove.
Qed.

(** With unique keys, a removed key is gone *)
Lemma get_remove_eq k d : NoDup (keys d) -> get k (remove k d) = None.
Proof.
  unfold keys. induction d as [|[k0 v0] d IH]; simpl; [done|].
  rewrite NoDup_cons. intros [Hnin Hnd].
  destruct (String.eqb_spec k k0) as [->|Hk]; simpl.
  - by apply get_None_keys.
  - destruct (String.eqb_spec k k0); [done | auto].
Qed.

Lemma remove_absent k d : get k d = None -> remove k d = d.
Proof.
  induction d as [|[k0 v0] d IH]; simpl; [done|].
  destruct (String.eqb_spec k k0); [done|].
  intros H. by rewrite IH.
Qed.

Lemma contains_true k d : contains k d = true <-> get k d <> None.
Proof. unfold contains. destruct (get k d); split; congruence. Qed.

Lemma pop_present k v d : get k d = Some v -> pop k d = Returns (v, remove k d).
Proof. unfold pop. by intros ->. Qed.
End PyDictFacts.

(** * The loss combination of [BaseDistiller] *)

Section LossCombination.
Import Distiller.
Implicit Types (ads : list Adaptor) (ls : list Q) (ld acc : pydict Q).

Lemma bind_Returns {A B : Type} (v : A) (k : A -> result B) :
  (Returns v ≫= k) = k v.
Proof. reflexivity. Qed.

Lemma elem_of_remove_ne (k : string) ld kv :
  NoDup (keys ld) -> kv ∈ remove k ld -> kv.1 <> k.
Proof.
  intros Hnd Hin <-.
  pose proof (get_remove_eq kv.1 ld Hnd) as Hnone.
  apply get_None_keys in Hnone. apply Hnone.
  unfold keys. apply list_elem_of_fmap. by exists kv.
Qed.

(** The loop returns as soon as every adaptor does *)
Lemma compute_loss_loop_returns out_t out_s mask ads ls acc :
  adaptor_losses out_t out_s mask ads ls ->
  returns (compute_loss_loop ads out_t out_s mask acc).
Proof.
  intros H. revert acc.
  induction H as [|a l ads ls Ha _ IH]; intros acc; simpl.
  - by exists acc.
  - unfold adaptor_loss in Ha. rewrite Ha, bind_Returns. apply IH.
Qed.

(** What the loop keeps: unique keys, the keys it started from, and
    entries that are either old or some adaptor's weighted loss *)
Lemma compute_loss_loop_inv out_t out_s mask ads acc ld :
  compute_loss_loop ads out_t out_s mask acc = Returns ld ->
  (NoDup (keys acc) -> NoDup (keys ld))
  /\ (forall k, get k acc <> None -> get k ld <> None)
  /\ (forall kv, kv ∈ ld ->
        kv ∈ acc \/
        exists a l, a ∈ ads /\ adaptor_loss out_t out_s mask a l
                    /\ kv = (name a, (w a * l)%Q)).
Proof.
  revert acc. induction ads as [|a ads IH]; intros acc; simpl.
  - intros [= ->]. auto.
  - destruct (call a _ _ mask) as [l|e] eqn:Ha; [|done].
    rewrite bind_Returns. intros Hloop.
    destruct (IH _ Hloop) as (Hnd & Hkeys & Hin). repeat split.
    + intros H. by apply Hnd, NoDup_keys_set.
    + intros k Hk. apply Hkeys.
      destruct (decide (name a = k)) as [<-|Hne].
      * by rewrite get_set_eq.
      * by rewrite get_set_ne.
    + intros kv Hkv. destruct (Hin kv Hkv) as [Hold|(a' & l' & Ha' & Hl' & ->)].
      * apply elem_of_set in Hold as [->|Hold]; [|by left].
        right. exists a, l. split; [left | done].
      * right. exists a', l'. split; [by right | done].
Qed.

(** With distinct fresh names the loop appends one entry per adaptor *)
Lemma compute_loss_loop_well_named out_t out_s mask ads ls acc :
  adaptor_losses out_t out_s mask ads ls ->
  NoDup (keys acc ++ map name ads)%list ->
  compute_loss_loop ads out_t out_s mask acc
  = Returns (acc ++ weighted ads ls)%list.
Proof.
  intros H. revert acc.
  induction H as [|a l ads ls Ha _ IH]; intros acc Hnd; simpl.
  - by rewrite app_nil_r.
  - unfold adaptor_loss in Ha. rewrite Ha, bind_Returns.
    assert (get (name a) acc = None) as Hfresh.
    { apply get_None_keys. intros Hin.
      apply NoDup_app in Hnd as (_ & Hdisj & _).
      apply (Hdisj _ Hin). left. }
    rewrite (set_fresh _ _ _ Hfresh), IH.
    + unfold weighted. simpl. by rewrite <- app_assoc.
    + unfold keys in *. rewrite map_app. simpl.
      by rewrite <- app_assoc.
Qed.

Lemma compute_loss_returns self out_t out_s mask ls :
  adaptor_losses out_t out_s mask (adaptors self) ls ->
  returns (compute_loss self out_t out_s mask).
Proof. apply compute_loss_loop_returns. Qed.

Lemma compute_loss_inv self out_t out_s mask ld :
  compute_loss self out_t out_s mask = Returns ld ->
  NoDup (keys ld)
  /\ get "pred:nll" ld <> None
  /\ get "nll_loss_teacher" ld <> None
  /\ (forall kv, kv ∈ ld ->
        kv = ("pred:nll", get_loss out_s)
        \/ kv = ("nll_loss_teacher", get_loss out_t)
        \/ exists a l, a ∈ adaptors self
                       /\ adaptor_loss out_t out_s mask a l
                       /\ kv = (name a, (w a * l)%Q)).
Proof.
  unfold compute_loss. intros H.
  apply compute_loss_loop_inv in H as (Hnd & Hkeys & Hin).
  repeat split.
  - apply Hnd. simpl. apply NoDup_cons. split; [|apply NoDup_singleton].
    rewrite list_elem_of_singleton. discriminate.
  - by apply Hkeys.
  - by apply Hkeys.
  - intros kv Hkv. destruct (Hin kv Hkv) as [Hold|?]; [|auto].
    rewrite !elem_of_cons, elem_of_nil in Hold. tauto.
Qed.

Lemma compute_loss_well_named self out_t out_s mask ls :
  adaptor_losses out_t out_s mask (adaptors self) ls ->
  well_named (adaptors self) ->
  compute_loss self out_t out_s mask
  = Returns (("pred:nll", get_loss out_s)
             :: ("nll_loss_teacher", get_loss out_t)
             :: weighted (adaptors self) ls).
Proof.
  intros Hls Hwn. unfold compute_loss.
  by rewrite (compute_loss_loop_well_named _ _ _ _ ls).
Qed.

(** The terms [training_step] sums: the teacher's term is always dropped,
    the prediction term when it is zero *)
Lemma combine_spec ld (p t : Q) :
  NoDup (keys ld) ->
  get "pred:nll" ld = Some p ->
  get "nll_loss_teacher" ld = Some t ->
  combine ld
  = Returns (py_sum (values
      (remove "nll_loss_teacher"
         (if Qeq_bool p 0 then remove "pred:nll" ld else ld)))).
Proof.
  intros Hnd Hp Ht. unfold combine, getitem. rewrite Hp, bind_Returns.
  destruct (Qeq_bool p 0).
  - rewrite (pop_present _ _ _ Hp), bind_Returns.
    assert (get "nll_loss_teacher" (remove "pred:nll" ld) = Some t) as Ht'
      by (by rewrite get_remove_ne).
    rewrite (pop_present _ _ _ Ht'). simpl.
    assert (contains "nll_loss_teacher"
              (remove "nll_loss_teacher" (remove "pred:nll" ld)) = false)
      as ->.
    { unfold contains.
      by rewrite get_remove_eq by by apply NoDup_keys_remove. }
    reflexivity.
  - simpl. assert (contains "nll_loss_teacher" ld = true) as ->
      by (apply contains_true; by rewrite Ht).
    by rewrite (pop_present _ _ _ Ht).
Qed.

Lemma training_step_spec self batch idx log out_t out_s ld (p t : Q) :
  forward self batch = Returns (out_t, out_s) ->
  compute_loss self out_t out_s (get "attention_mask" batch) = Returns ld ->
  get "pred:nll" ld = Some p ->
  get "nll_loss_teacher" ld = Some t ->
  training_step self batch idx log
  = Returns (py_sum (values
               (remove "nll_loss_teacher"
                  (if Qeq_bool p 0 then remove "pred:nll" ld else ld))),
             (log ++ ld)%list).
Proof.
  intros Hfwd Hld Hp Ht. unfold training_step.
  rewrite Hfwd, bind_Returns, Hld, bind_Returns.
  destruct (compute_loss_inv _ _ _ _ _ Hld) as (Hnd & _).
  by rewrite (combine_spec ld p t).
Qed.

Lemma compute_loss_loop_keys_prefix out_t out_s mask ads acc ld :
  compute_loss_loop ads out_t out_s mask acc = Returns ld ->
  exists extra, keys ld = (keys acc ++ extra)%list.
Proof.
  revert acc. induction ads as [|a ads IH]; intros acc; simpl.
  - intros [= <-]. exists []. by rewrite app_nil_r.
  - destruct (call a _ _ mask) as [l|e]; [|done].
    rewrite bind_Returns. intros Hloop.
    destruct (IH _ Hloop) as [extra Hextra]. rewrite Hextra.
    destruct (get (name a) acc) eqn:Hget.
    + exists extra. rewrite keys_set_present; [done | by rewrite Hget].
    + rewrite (set_fresh _ _ _ Hget). unfold keys. rewrite map_app. simpl.
      exists (name a :: extra). by rewrite <- app_assoc.
Qed.

(** The two fixed keys stay in front, in their order *)
Lemma compute_loss_head self out_t out_s mask ld :
  compute_loss self out_t out_s mask = Returns ld ->
  exists (p t : Q) rest,
    ld = ("pred:nll", p) :: ("nll_loss_teacher", t) :: rest
    /\ get "pred:nll" rest = None
    /\ get "nll_loss_teacher" rest = None.
Proof.
  intros Hld. destruct (compute_loss_inv _ _ _ _ _ Hld) as (Hnd & _).
  unfold compute_loss in Hld.
  apply compute_loss_loop_keys_prefix in Hld as [extra Hkeys]. simpl in Hkeys.
  destruct ld as [|[k1 p] [|[k2 t] rest]]; try done.
  simpl in Hkeys. injection Hkeys as -> -> Hrest.
  exists p, t, rest. split; [done|].
  unfold keys in Hnd. simpl in Hnd.
  apply NoDup_cons in Hnd as [Hn1 Hnd]. apply NoDup_cons in Hnd as [Hn2 _].
  split; apply get_None_keys; unfold keys.
  - intros Hin. apply Hn1. by right.
  - done.
Qed.

(** [sum] adds the values from the left, starting from 0 *)
Lemma py_sum_sum_of (xs : list Q) : py_sum xs = sum_of xs.
Proof.
  unfold py_sum, sum_of. generalize 0%Q.
  induction xs as [|x xs IH]; intros acc; simpl; [done | apply IH].
Qed.

End LossCombination.

Section LossClaims.
Import Distiller.
Implicit Types (ads : list Adaptor) (ls : list Q) (ld : pydict Q).

Lemma adaptor_loss_unique out_t out_s mask a (l l' : Q) :
  adaptor_loss out_t out_s mask a l ->
  adaptor_loss out_t out_s mask a l' -> l = l'.
Proof. unfold adaptor_loss. congruence. Qed.

Lemma adaptor_losses_both out_t out_s mask ads ls (S : Adaptor -> Q -> Prop) a :
  adaptor_losses out_t out_s mask ads ls ->
  Forall2 S ads ls -> a ∈ ads ->
  exists l, adaptor_loss out_t out_s mask a l /\ S a l.
Proof.
  intros H. induction H as [|a' l ads ls Ha _ IH]; intros HS Hin.
  - by apply elem_of_nil in Hin.
  - apply Forall2_cons in HS as [Hs HS].
    apply elem_of_cons in Hin as [->|Hin]; [by exists l | auto].
Qed.

Lemma adaptor_losses_all out_t out_s mask ads ls (P : Q -> Prop) a :
  adaptor_losses out_t out_s mask ads ls ->
  Forall P ls -> a ∈ ads ->
  exists l, adaptor_loss out_t out_s mask a l /\ P l.
Proof.
  intros H HP. apply (adaptor_losses_both _ _ _ _ ls (fun _ => P)); [done|].
  clear -H HP. induction H; [constructor|].
  apply Forall_cons in HP as [? ?]. constructor; auto.
Qed.

Lemma py_sum_zero (xs : list Q) :
  Forall (fun x => x == 0)%Q xs -> (py_sum xs == 0)%Q.
Proof.
  unfold py_sum. intros H.
  assert (forall acc : Q, (acc == 0)%Q -> (fold_left Qplus xs acc == 0)%Q) as Hacc.
  { induction H as [|x xs Hx _ IH]; intros acc Hacc; simpl; [done|].
    apply IH. rewrite Hacc, Hx. reflexivity. }
  by apply Hacc.
Qed.

(** C1 (amended). For a batch with a label signal (the dictionary's
    prediction term ['pred:nll'] is non-zero), [training_step] returns the
    sum of every entry of the loss dictionary except ['nll_loss_teacher'],
    added in the order of the dictionary starting from 0: the prediction
    term is kept and the teacher's cross-entropy, which is logged, is never
    part of the sum. When the adaptor names are pairwise distinct and differ
    from the two fixed keys, this is the student's cross-entropy plus every
    adaptor's loss multiplied by its weight. *)
Theorem training_step_with_labels self batch idx log out_t out_s ld (p : Q) :
  forward self batch = Returns (out_t, out_s) ->
  compute_loss self out_t out_s (get "attention_mask" batch) = Returns ld ->
  get "pred:nll" ld = Some p ->
  ~ (p == 0)%Q ->
  let summed := remove "nll_loss_teacher" ld in
  training_step self batch idx log
    = Returns (sum_of (values summed), (log ++ ld)%list)
  /\ get "pred:nll" summed = Some p
  /\ get "nll_loss_teacher" summed = None
  /\ (forall ls,
        well_named (adaptors self) ->
        adaptor_losses out_t out_s (get "attention_mask" batch)
          (adaptors self) ls ->
        summed = ("pred:nll", get_loss out_s) :: weighted (adaptors self) ls
        /\ training_step self batch idx log
           = Returns (added_to (0 + get_loss out_s)
                        (values (weighted (adaptors self) ls)),
                      (log ++ ld)%list)).
Proof.
  intros Hfwd Hld Hp Hnz summed.
  destruct (compute_loss_inv _ _ _ _ _ Hld) as (Hnd & _ & Ht & _).
  destruct (get "nll_loss_teacher" ld) as [t|] eqn:Hteacher; [clear Ht|done].
  assert (Qeq_bool p 0 = false) as Hb.
  { destruct (Qeq_bool p 0) eqn:E; [|done].
    by apply Qeq_bool_iff in E. }
  assert (training_step self batch idx log
          = Returns (sum_of (values summed), (log ++ ld)%list)) as Hstep.
  { rewrite (training_step_spec _ _ _ _ _ _ _ p t Hfwd Hld Hp Hteacher).
    by rewrite Hb, py_sum_sum_of. }
  split; [done|]. split; [|split].
  - unfold summed. by rewrite get_remove_ne.
  - by apply get_remove_eq.
  - intros ls Hwn Hls.
    assert (summed = ("pred:nll", get_loss out_s) :: weighted (adaptors self) ls)
      as Hsummed.
    { unfold summed.
      rewrite (compute_loss_well_named _ _ _ _ ls Hls Hwn) in Hld.
      by injection Hld as <-. }
    split; [done|]. by rewrite Hstep, Hsummed.
Qed.

(** C2. When the loss dictionary's prediction term ['pred:nll'] is exactly
    zero, [training_step] removes both ['pred:nll'] and
    ['nll_loss_teacher'] and returns the sum of what is left, added in the
    order of the dictionary starting from 0; every entry that is left is the
    weighted loss of an adaptor, and with pairwise distinct adaptor names
    that differ from the two fixed keys what is left is exactly one weighted
    loss per adaptor. *)
Theorem training_step_zero_pred self batch idx log out_t out_s ld (p : Q) :
  forward self batch = Returns (out_t, out_s) ->
  compute_loss self out_t out_s (get "attention_mask" batch) = Returns ld ->
  get "pred:nll" ld = Some p ->
  (p == 0)%Q ->
  let summed := remove "nll_loss_teacher" (remove "pred:nll" ld) in
  training_step self batch idx log
    = Returns (sum_of (values summed), (log ++ ld)%list)
  /\ get "pred:nll" summed = None
  /\ get "nll_loss_teacher" summed = None
  /\ (forall k v, (k, v) ∈ summed ->
        exists a l, a ∈ adaptors self
          /\ adaptor_loss out_t out_s (get "attention_mask" batch) a l
          /\ k = name a /\ v = (w a * l)%Q)
  /\ (forall ls,
        well_named (adaptors self) ->
        adaptor_losses out_t out_s (get "attention_mask" batch)
          (adaptors self) ls ->
        summed = weighted (adaptors self) ls
        /\ training_step self batch idx log
           = Returns (added_to 0 (values (weighted (adaptors self) ls)),
                      (log ++ ld)%list)).
Proof.
  intros Hfwd Hld Hp Hz summed.
  destruct (compute_loss_inv _ _ _ _ _ Hld) as (Hnd & _ & Ht & Hin).
  destruct (get "nll_loss_teacher" ld) as [t|] eqn:Hteacher; [clear Ht|done].
  assert (Qeq_bool p 0 = true) as Hb by by apply Qeq_bool_iff.
  assert (NoDup (keys (remove "pred:nll" ld))) as Hnd'
    by by apply NoDup_keys_remove.
  assert (training_step self batch idx log
          = Returns (sum_of (values summed), (log ++ ld)%list)) as Hstep.
  { rewrite (training_step_spec _ _ _ _ _ _ _ p t Hfwd Hld Hp Hteacher).
    by rewrite Hb, py_sum_sum_of. }
  split; [done|]. split; [|split; [|split]].
  - unfold summed. rewrite get_remove_ne by done. by apply get_remove_eq.
  - by apply get_remove_eq.
  - intros k v Hkv.
    pose proof (elem_of_remove_ne _ _ _ Hnd' Hkv) as Hk1.
    apply elem_of_remove in Hkv.
    pose proof (elem_of_remove_ne _ _ _ Hnd Hkv) as Hk2.
    apply elem_of_remove in Hkv. simpl in Hk1, Hk2.
    destruct (Hin _ Hkv) as [[=]|[[=]|(a & l & Ha & Hl & [= -> ->])]];
      [done | done | by exists a, l].
  - intros ls Hwn Hls.
    assert (summed = weighted (adaptors self) ls) as Hsummed.
    { unfold summed.
      rewrite (compute_loss_well_named _ _ _ _ ls Hls Hwn) in Hld.
      by injection Hld as <-. }
    split; [done|]. by rewrite Hstep, Hsummed.
Qed.

(** C7. If the student's loss, the teacher's loss and every adaptor loss
    computed on the two outputs are zero, then for any adaptor weights
    [training_step] returns, and the loss it returns is zero. *)
Theorem training_step_all_zero self batch idx log out_t out_s ls :
  forward self batch = Returns (out_t, out_s) ->
  (get_loss out_s == 0)%Q ->
  (get_loss out_t == 0)%Q ->
  adaptor_losses out_t out_s (get "attention_mask" batch) (adaptors self) ls ->
  Forall (fun l => l == 0)%Q ls ->
  exists loss log',
    training_step self batch idx log = Returns (loss, log')
    /\ (loss == 0)%Q.
Proof.
  intros Hfwd Hs Ht Hls Hzero.
  destruct (compute_loss_returns _ _ _ _ _ Hls) as [ld Hld].
  destruct (compute_loss_inv _ _ _ _ _ Hld) as (Hnd & Hp & Hteacher & Hin).
  destruct (get "pred:nll" ld) as [p|] eqn:Hpred; [clear Hp|done].
  destruct (get "nll_loss_teacher" ld) as [t|] eqn:Htch; [clear Hteacher|done].
  eexists _, _. split.
  - apply (training_step_spec _ _ _ _ _ _ _ p t Hfwd Hld Hpred Htch).
  - apply py_sum_zero. unfold values. apply Forall_forall.
    intros v Hv. apply list_elem_of_fmap in Hv as [[k v'] [-> Hkv]].
    assert ((k, v') ∈ ld) as Hmem.
    { apply elem_of_remove in Hkv.
      destruct (Qeq_bool p 0); [by apply elem_of_remove in Hkv | done]. }
    simpl.
    destruct (Hin _ Hmem) as [[= _ ->]|[[= _ ->]|(a & l & Ha & Hl & [= _ ->])]];
      [done | done |].
    destruct (adaptor_losses_all _ _ _ _ _ _ a Hls Hzero Ha) as (l' & Hl' & Hz).
    rewrite (adaptor_loss_unique _ _ _ _ _ _ Hl Hl'), Hz. ring.
Qed.

(** Witness of [training_step_with_labels] on the labelled sample: the
    loss is (0 + 1) + 1/2 * 4, which is 3 *)
Lemma training_step_with_labels_witness :
  training_step labelled [] 0 []
  = Returns ((0 + 1 + (1 # 2) * 4)%Q,
             [("pred:nll", 1%Q); ("nll_loss_teacher", 2%Q);
              ("attentions:mse", ((1 # 2) * 4)%Q)])
  /\ (0 + 1 + (1 # 2) * 4 == 3)%Q.
Proof.
  split; [|reflexivity].
  refine (proj1 (training_step_with_labels labelled [] 0 []
                   {| out_loss := Some 2%Q; out_features := [] |}
                   {| out_loss := Some 1%Q; out_features := [] |}
                   [("pred:nll", 1%Q); ("nll_loss_teacher", 2%Q);
                    ("attentions:mse", ((1 # 2) * 4)%Q)]
                   1%Q _ _ _ _)).
  - reflexivity.
  - reflexivity.
  - reflexivity.
  - intros H. discriminate H.
Defined.

(** C1, as stated, fails on the labelled sample: the student's loss is 1,
    the teacher's 2, the adaptor's weighted loss 1/2 * 4, and the step
    returns 3, not 1 + 2 + 2. *)
Lemma training_step_omits_teacher_loss :
  exists out_t out_s loss log',
    forward labelled [] = Returns (out_t, out_s)
    /\ ~ (get_loss out_s == 0)%Q
    /\ adaptor_losses out_t out_s None (adaptors labelled) [4%Q]
    /\ training_step labelled [] 0 [] = Returns (loss, log')
    /\ (loss == 3)%Q
    /\ ~ (loss == get_loss out_s + get_loss out_t
                  + sum_of (values (weighted (adaptors labelled) [4%Q])))%Q.
Proof.
  eexists _, _, _, _. split; [reflexivity|].
  split; [intros H; discriminate H|].
  split; [repeat constructor|].
  split; [reflexivity|].
  split; [reflexivity | intros H; discriminate H].
Qed.

(** Witness of [training_step_zero_pred] on the unlabelled sample: the
    loss is the adaptor's 0 + 1/2 * 4 alone, which is 2 *)
Lemma training_step_zero_pred_witness :
  training_step unlabelled [] 0 []
  = Returns ((0 + (1 # 2) * 4)%Q,
             [("pred:nll", 0%Q); ("nll_loss_teacher", 2%Q);
              ("attentions:mse", ((1 # 2) * 4)%Q)])
  /\ (0 + (1 # 2) * 4 == 2)%Q.
Proof.
  split; [|reflexivity].
  refine (proj1 (training_step_zero_pred unlabelled [] 0 []
                   {| out_loss := Some 2%Q; out_features := [] |}
                   {| out_loss := None; out_features := [] |}
                   [("pred:nll", 0%Q); ("nll_loss_teacher", 2%Q);
                    ("attentions:mse", ((1 # 2) * 4)%Q)]
                   0%Q _ _ _ _)).
  - reflexivity.
  - reflexivity.
  - reflexivity.
  - reflexivity.
Defined.

(** Witness of [training_step_all_zero] *)
Lemma training_step_all_zero_witness :
  exists loss log',
    training_step all_zero [] 0 [] = Returns (loss, log') /\ (loss == 0)%Q.
Proof.
  refine (training_step_all_zero all_zero [] 0 []
            {| out_loss := Some 0%Q; out_features := [] |}
            {| out_loss := None; out_features := [] |}
            [0%Q] _ _ _ _ _).
  - reflexivity.
  - reflexivity.
  - reflexivity.
  - repeat constructor.
  - repeat constructor.
Defined.

End LossClaims.

(** * The checkpoint adapter *)

Section CheckpointClaims.
Import Distiller.

Lemma lift_bind {S A B : Type} (r : result A) (k : A -> Eff S B) st :
  (lift r ≫= k) st
  = match r with
    | Returns v => k v st
    | Raises e => (st, Raises e)
    end.
Proof. by destruct r. Qed.

Lemma save_checkpoint_files checkpoint path fs p f :
  written fs (save_checkpoint checkpoint path fs).1 p f ->
  exists m, checkpoint !! "student" = Some (CkModel m)
            /\ source f = m
            /\ (p = config_path path \/ p = weights_path path).
Proof.
  unfold save_checkpoint, student_entry, written.
  change ((makedirs ?d;; ?k) fs) with (k (makedirs d fs).1).
  rewrite lift_bind.
  destruct (checkpoint !! "student") as [[m| |]|]; simpl; try tauto.
  unfold save_pretrained. simpl.
  destruct (files fs !! path); simpl; [tauto|].
  intros [Hnew Hold]. exists m. split; [done|].
  destruct (decide (weights_path path = p)) as [<-|Hw].
  - rewrite lookup_insert_eq in Hnew. injection Hnew as <-. auto.
  - rewrite lookup_insert_ne in Hnew by done.
    destruct (decide (config_path path = p)) as [<-|Hc].
    + rewrite lookup_insert_eq in Hnew. injection Hnew as <-. auto.
    + rewrite lookup_insert_ne in Hnew by done. done.
Qed.

Lemma save_checkpoint_fresh checkpoint path fs m :
  checkpoint !! "student" = Some (CkModel m) ->
  files fs !! path = None ->
  save_checkpoint checkpoint path fs
  = ({| dirs := {[ path ]} ∪ ({[ dirname path ]} ∪ dirs fs);
        files := <[weights_path path := WeightsBin m]>
                   (<[config_path path := ConfigJson m]> (files fs)) |},
     Returns tt).
Proof.
  intros Hm Hfree. unfold save_checkpoint, student_entry.
  change ((makedirs ?d;; ?k) fs) with (k (makedirs d fs).1).
  rewrite lift_bind, Hm. unfold save_pretrained. simpl. by rewrite Hfree.
Qed.

(** C3. Whatever else the checkpoint dictionary holds, [save_checkpoint]
    uses only its ['student'] entry, which [on_save_checkpoint] sets to
    [self.student]. Whether the save returns or raises, every file it writes
    is the configuration or the weights of the student under the path and
    every other file is left as it was, so no written file is derived from
    a teacher that is not the student; on a path that is not an existing
    file the save returns and both files are written. Removing a checkpoint
    writes no file. *)
Theorem save_checkpoint_student_only self checkpoint path fs :
  (forall checkpoint',
     checkpoint' !! "student" = checkpoint !! "student" ->
     save_checkpoint checkpoint' path fs = save_checkpoint checkpoint path fs)
  /\ (forall p f, written fs (trainer_save self checkpoint path fs).1 p f ->
        source f = student self
        /\ (p = config_path path \/ p = weights_path path))
  /\ (teacher self <> student self ->
      forall p f, written fs (trainer_save self checkpoint path fs).1 p f ->
        source f <> teacher self)
  /\ (files fs !! path = None ->
      (trainer_save self checkpoint path fs).2 = Returns tt
      /\ files (trainer_save self checkpoint path fs).1
         = <[weights_path path := WeightsBin (student self)]>
             (<[config_path path := ConfigJson (student self)]> (files fs)))
  /\ (forall p f, ~ written fs (remove_checkpoint path fs).1 p f).
Proof.
  assert (forall p f, written fs (trainer_save self checkpoint path fs).1 p f ->
            source f = student self
            /\ (p = config_path path \/ p = weights_path path)) as Hwritten.
  { intros p f Hw. unfold trainer_save in Hw.
    apply save_checkpoint_files in Hw as (m & Hm & Hsrc & Hp).
    unfold on_save_checkpoint in Hm. rewrite lookup_insert_eq in Hm.
    injection Hm as <-. auto. }
  split; [|split; [done|split; [|split]]].
  - intros checkpoint' Heq. unfold save_checkpoint, student_entry.
    by rewrite Heq.
  - intros Hne p f Hw Hsrc. destruct (Hwritten p f Hw) as [Hs _]. congruence.
  - intros Hfree. unfold trainer_save.
    by rewrite (save_checkpoint_fresh _ _ _ (student self))
      by (done || apply lookup_insert_eq).
  - intros p f [Hnew Hold]. apply Hold. unfold remove_checkpoint in Hnew.
    case_bool_decide; simpl in Hnew; [|done].
    by apply map_lookup_filter_Some in Hnew as [? _].
Qed.

(** Witness of [save_checkpoint_student_only]: saving the labelled sample
    to a fresh path writes the student's two files and nothing of the
    teacher *)
Lemma save_checkpoint_student_only_witness :
  (trainer_save labelled
     {[ "state_dict" := CkStateDict [teacher labelled; student labelled] ]}
     "ckpts/epoch=0" {| dirs := ∅; files := ∅ |}).2 = Returns tt
  /\ forall p f,
       written {| dirs := ∅; files := ∅ |}
         (trainer_save labelled
            {[ "state_dict" :=
                 CkStateDict [teacher labelled; student labelled] ]}
            "ckpts/epoch=0" {| dirs := ∅; files := ∅ |}).1 p f ->
       source f <> teacher labelled.
Proof.
  pose proof (save_checkpoint_student_only labelled
                {[ "state_dict" :=
                     CkStateDict [teacher labelled; student labelled] ]}
                "ckpts/epoch=0" {| dirs := ∅; files := ∅ |})
    as (_ & _ & Hteacher & Hret & _).
  split.
  - exact (proj1 (Hret eq_refl)).
  - apply Hteacher. discriminate.
Defined.
End CheckpointClaims.

(** * The perplexity of [Pretrainer] *)

Section PerplexityClaims.
Import Pretrainer.
Variable stack_mean : list float -> result float.
Variable math_exp : float -> result float.

(** C4. For a mean validation loss, the perplexity that
    [validation_epoch_end] logs is the value of [math.exp] when it returns
    one, and positive infinity when [math.exp] reports an overflow. *)
Theorem perplexity_exp_or_inf outputs log val_loss :
  stack_mean outputs = Returns val_loss ->
  (forall v, math_exp val_loss = Returns v ->
     perplexity math_exp val_loss = Returns v
     /\ validation_epoch_end stack_mean math_exp outputs log
        = Returns (log ++ [("perplexity", v)])%list)
  /\ (math_exp val_loss = Raises OverflowError ->
      perplexity math_exp val_loss = Returns infinity
      /\ validation_epoch_end stack_mean math_exp outputs log
         = Returns (log ++ [("perplexity", infinity)])%list).
Proof.
  intros Hmean. unfold validation_epoch_end, perplexity.
  rewrite Hmean, bind_Returns.
  split.
  - intros v Hv. rewrite Hv. split; reflexivity.
  - intros Hv. rewrite Hv. split; reflexivity.
Qed.
End PerplexityClaims.

(** Witness of [perplexity_exp_or_inf]: a loss of 1000 overflows and is
    logged as infinity, a loss of 0 is logged as 1 *)
Lemma perplexity_exp_or_inf_witness :
  Pretrainer.validation_epoch_end sample_mean sample_exp [1000%float] []
  = Returns [("perplexity", infinity)]
  /\ Pretrainer.validation_epoch_end sample_mean sample_exp [0%float] []
     = Returns [("perplexity", 1%float)].
Proof.
  split.
  - exact (proj2 (proj2 (perplexity_exp_or_inf sample_mean sample_exp
                           [1000%float] [] 1000%float eq_refl) eq_refl)).
  - exact (proj2 (proj1 (perplexity_exp_or_inf sample_mean sample_exp
                           [0%float] [] 0%float eq_refl) 1%float eq_refl)).
Defined.

(** * The validation log and the early-stopping monitor *)

Section ValidationClaims.
Import Distiller Script.

Lemma validation_epoch_end_keys self outputs log log' :
  validation_epoch_end self outputs log = Returns log' ->
  map fst log' = (map fst log ++ validation_keys)%list.
Proof.
  unfold validation_epoch_end.
  destruct (stack_mean outputs) as [m|e]; [|done].
  intros [= <-]. rewrite !map_app. simpl. by rewrite <- !app_assoc.
Qed.

End ValidationClaims.

(** * The datasets and the number of classes *)

Section DatasetClaims.
Import Distiller Script.

Lemma valid_trn_false trn :
valid_trn trn = false ->
is_str trn "sst2" = false /\ is_str trn "tweet" = false
/\ is_str trn "sst2-tweet" = false.
Proof.
unfold valid_trn. rewrite !orb_false_iff. tauto.
Qed.

Lemma valid_val_false val :
valid_val val = false ->
is_str val "sst2" = false /\ is_str val "tweet" = false.
Proof. unfold valid_val. by rewrite orb_false_iff. Qed.

(** C8. When [args.trn_dataset] is none of ['sst2'], ['tweet'],
  ['sst2-tweet'], or [args.val_dataset] is none of ['sst2'], ['tweet'],
  [get_dataset_obj] ends with an exception: with both datasets loaded and
  an unknown training set it is the [UnboundLocalError] of the local
  [train] (known validation set) or [dataset] (unknown one); with a known
  training set and an unknown validation set it is the
  [UnboundLocalError] of [dataset], unless the ['train'] split was already
  missing. Nothing in the function catches it. *)
Theorem get_dataset_obj_invalid_name_raises load_sst2 load_tweet args trn val :
args !! "trn_dataset" = Some trn ->
args !! "val_dataset" = Some val ->
valid_trn trn = false \/ valid_val val = false ->
(exists e, get_dataset_obj load_sst2 load_tweet args = Raises e)
/\ (forall sst2 tweet,
      load_sst2 = Returns sst2 -> load_tweet = Returns tweet ->
      valid_trn trn = false ->
      get_dataset_obj load_sst2 load_tweet args
      = Raises (UnboundLocalError
                  (if valid_val val then "train" else "dataset")))
/\ (forall sst2 tweet,
      load_sst2 = Returns sst2 -> load_tweet = Returns tweet ->
      valid_trn trn = true ->
      get_dataset_obj load_sst2 load_tweet args
      = Raises (UnboundLocalError "dataset")
      \/ get_dataset_obj load_sst2 load_tweet args
         = Raises (KeyError "train")).
Proof.
intros Htrn Hval Hbad.
assert (forall sst2 tweet,
      load_sst2 = Returns sst2 -> load_tweet = Returns tweet ->
      valid_trn trn = false ->
      get_dataset_obj load_sst2 load_tweet args
      = Raises (UnboundLocalError
                  (if valid_val val then "train" else "dataset"))) as Hno_trn.
{ intros sst2 tweet -> -> Hinv.
  apply valid_trn_false in Hinv as (H1 & H2 & H3).
  unfold get_dataset_obj, getattr. rewrite !bind_Returns, Htrn, bind_Returns.
  rewrite H1, H2, H3, bind_Returns, Hval, bind_Returns.
  unfold valid_val.
  destruct (is_str val "sst2"); [done|].
  destruct (is_str val "tweet"); done. }
assert (forall sst2 tweet,
      load_sst2 = Returns sst2 -> load_tweet = Returns tweet ->
      valid_val val = false ->
      get_dataset_obj load_sst2 load_tweet args
      = Raises (UnboundLocalError "dataset")
      \/ get_dataset_obj load_sst2 load_tweet args
         = Raises (KeyError "train")) as Hno_val.
{ intros sst2 tweet -> -> Hinv.
  apply valid_val_false in Hinv as (H1 & H2).
  unfold get_dataset_obj, getattr. rewrite !bind_Returns, Htrn, bind_Returns.
  destruct (is_str trn "sst2").
  { unfold split. destruct (_ !! "train"); [|by right].
    rewrite !bind_Returns, Hval, bind_Returns, H1, H2. by left. }
  destruct (is_str trn "tweet").
  { unfold split. destruct (_ !! "train"); [|by right].
    rewrite !bind_Returns, Hval, bind_Returns, H1, H2. by left. }
  destruct (is_str trn "sst2-tweet").
  { unfold split.
    destruct ((_ <$> (_ <$> sst2)) !! "train"); [|by right].
    rewrite !bind_Returns.
    destruct ((_ <$> tweet) !! "train"); [|by right].
    rewrite !bind_Returns, Hval, bind_Returns, H1, H2. by left. }
  rewrite !bind_Returns, Hval, bind_Returns, H1, H2. by left. }
split; [|split].
- destruct load_sst2 as [sst2|e1] eqn:E1; [|by exists e1].
  destruct load_tweet as [tweet|e2] eqn:E2; [|by exists e2].
  destruct (valid_trn trn) eqn:Ht.
  + destruct Hbad as [|Hv]; [done|].
    destruct (Hno_val sst2 tweet eq_refl eq_refl Hv) as [->| ->]; eauto.
  + rewrite (Hno_trn sst2 tweet eq_refl eq_refl eq_refl). eauto.
- done.
- intros sst2 tweet H1 H2 Ht. destruct Hbad as [Hb|Hv]; [congruence|].
  by apply (Hno_val sst2 tweet).
Qed.

Lemma valid_trn_train (sst2 tweet : DatasetDict) trn a b :
valid_trn trn = true ->
sst2 !! "train" = Some a -> tweet !! "train" = Some b ->
exists train,
  (if is_str trn "sst2" then
     t ← split (rename_column "sentence" "text" <$> sst2) "train";
     mret (Some t)
   else if is_str trn "tweet" then
     t ← split tweet "train"; mret (Some t)
   else if is_str trn "sst2-tweet" then
     a ← split (remove_columns ["idx"; "label"]
                <$> (rename_column "sentence" "text" <$> sst2)) "train";
     b ← split (remove_columns ["label"] <$> tweet) "train";
     mret (Some (concatenate_datasets a b))
   else mret None) = Returns (Some train).
Proof.
unfold valid_trn, split. intros Hv Ha Hb.
rewrite !lookup_fmap, Ha, Hb. simpl.
destruct (is_str trn "sst2"); [by eexists|].
destruct (is_str trn "tweet"); [by eexists|].
destruct (is_str trn "sst2-tweet"); [by eexists | done].
Qed.

Lemma init_body_metrics frame self ns n :
get "args" frame = Some (ONamespace ns) ->
ns !! "num_classes" = Some n ->
init_body frame = Returns self ->
get "acc_s" self = Some (OMetric (mkMetric "Accuracy" n 0))
/\ get "f1_s" self = Some (OMetric (mkMetric "F1Score" n 0))
/\ get "test_acc" self = Some (OMetric (mkMetric "Accuracy" n 0))
/\ get "test_f1" self = Some (OMetric (mkMetric "F1Score" n 0)).
Proof.
intros Hargs Hn. unfold init_body, getitem. rewrite Hargs, bind_Returns.
destruct (get "teacher" frame); [|done].
destruct (get "student" frame); [|done].
destruct (get "adaptors" frame); [|done].
rewrite !bind_Returns. unfold obj_getattr, getattr. rewrite Hn.
rewrite !bind_Returns. intros [= <-].
repeat split;
  repeat first [ apply get_set_eq | rewrite get_set_ne by discriminate ].
Qed.

Lemma get_teacher_and_student_num_labels hub bert ns n teacher student :
ns !! "num_classes" = Some n ->
get_teacher_and_student hub bert ns = Returns (teacher, student) ->
num_labels (m_config teacher) = n /\ num_labels (m_config student) = n.
Proof.
intros Hn. unfold get_teacher_and_student, getattr. rewrite Hn.
destruct (ns !! "student_model") as [sm|]; [|done].
rewrite bind_Returns.
assert (forall nm m, from_pretrained hub nm n = Returns m ->
                     num_labels (m_config m) = n) as Hfp.
{ intros nm m. unfold from_pretrained.
  destruct nm; try done. destruct (hub s); [|done]. by intros [= <-]. }
destruct (truthy sm).
- rewrite bind_Returns.
  destruct (from_pretrained hub sm n) as [s|] eqn:Hs; [|done].
  rewrite bind_Returns.
  destruct (ns !! "teacher_model") as [tm|]; [|done].
  rewrite !bind_Returns.
  destruct (from_pretrained hub tm n) as [t|] eqn:Ht; [|done].
  rewrite bind_Returns. intros [= <- <-]. simpl. eauto.
- destruct (ns !! "hidden_size"); [|done]. rewrite bind_Returns.
  destruct (ns !! "hidden_layers"); [|done]. rewrite bind_Returns.
  destruct (ns !! "atten_heads"); [|done]. rewrite !bind_Returns.
  destruct (ns !! "teacher_model") as [tm|]; [|done].
  rewrite !bind_Returns.
  destruct (from_pretrained hub tm n) as [t|] eqn:Ht; [|done].
  rewrite bind_Returns. intros [= <- <-]. simpl. eauto.
Qed.

(** C10. With [args.val_dataset] equal to ['tweet'] (and a known training
  set), [get_dataset_obj] returns with the attribute [num_clases] set to 3
  and [num_classes] as it was; when that was the parser default 2, the
  teacher and the student that [get_teacher_and_student] builds have two
  labels and the four metrics that [BaseDistiller.__init__] builds have
  two classes. *)
Theorem tweet_keeps_num_classes (sst2 tweet : DatasetDict) args trn a b :
args !! "trn_dataset" = Some trn ->
valid_trn trn = true ->
args !! "val_dataset" = Some (VStr "tweet") ->
sst2 !! "train" = Some a ->
tweet !! "train" = Some b ->
let args' := setattr args "num_clases" (VInt 3) in
(exists dataset,
   get_dataset_obj (Returns sst2) (Returns tweet) args
   = Returns (dataset, args'))
/\ args' !! "num_clases" = Some (VInt 3)
/\ args' !! "num_classes" = args !! "num_classes"
/\ (args !! "num_classes" = Some (VInt 2) ->
    (forall hub bert teacher student,
       get_teacher_and_student hub bert args' = Returns (teacher, student) ->
       num_labels (m_config teacher) = VInt 2
       /\ num_labels (m_config student) = VInt 2)
    /\ (forall frame self,
          get "args" frame = Some (ONamespace args') ->
          init_body frame = Returns self ->
          get "acc_s" self = Some (OMetric (mkMetric "Accuracy" (VInt 2) 0))
          /\ get "f1_s" self = Some (OMetric (mkMetric "F1Score" (VInt 2) 0))
          /\ get "test_acc" self
             = Some (OMetric (mkMetric "Accuracy" (VInt 2) 0))
          /\ get "test_f1" self
             = Some (OMetric (mkMetric "F1Score" (VInt 2) 0)))).
Proof.
intros Htrn Hvalid Hval Ha Hb args'.
assert (args' !! "num_classes" = args !! "num_classes") as Hkeep
  by (unfold args', setattr; by rewrite lookup_insert_ne).
split; [|split; [|split; [done|]]].
- destruct (valid_trn_train sst2 tweet trn a b Hvalid Ha Hb) as [train Htrain].
  unfold get_dataset_obj, getattr.
  rewrite !bind_Returns, Htrn, bind_Returns, Htrain, bind_Returns.
  rewrite Hval, bind_Returns. simpl. by eexists.
- unfold args', setattr. apply lookup_insert_eq.
- intros Hdefault. rewrite <- Hkeep in Hdefault. split.
  + intros hub bert teacher student.
    by apply get_teacher_and_student_num_labels.
  + intros frame self Hargs. by apply init_body_metrics with (ns := args').
Qed.

(** Witness of [get_dataset_obj_invalid_name_raises]: an unknown training
  set with the validation set ['tweet'] *)
Lemma get_dataset_obj_invalid_name_raises_witness :
get_dataset_obj (Returns sample_sst2) (Returns sample_tweet)
  (sample_namespace "sst" "tweet")
= Raises (UnboundLocalError "train").
Proof.
exact (proj1 (proj2 (get_dataset_obj_invalid_name_raises
                       (Returns sample_sst2) (Returns sample_tweet)
                       (sample_namespace "sst" "tweet")
                       (VStr "sst") (VStr "tweet")
                       eq_refl eq_refl (or_introl eq_refl)))
         sample_sst2 sample_tweet eq_refl eq_refl eq_refl).
Defined.

(** Witness of [tweet_keeps_num_classes]: the parsed sample namespace, whose
  [num_classes] is the parser default *)
Lemma tweet_keeps_num_classes_witness :
(exists dataset,
   get_dataset_obj (Returns sample_sst2) (Returns sample_tweet)
     (sample_namespace "sst2-tweet" "tweet")
   = Returns (dataset,
              setattr (sample_namespace "sst2-tweet" "tweet")
                "num_clases" (VInt 3)))
/\ setattr (sample_namespace "sst2-tweet" "tweet") "num_clases" (VInt 3)
   !! "num_classes" = Some (VInt 2).
Proof.
pose proof (tweet_keeps_num_classes sample_sst2 sample_tweet
              (sample_namespace "sst2-tweet" "tweet") (VStr "sst2-tweet")
              (mkDataset ["sentence"; "label"; "idx"] 10)
              (mkDataset ["text"; "label"] 7)
              eq_refl eq_refl eq_refl eq_refl eq_refl)
  as (Hret & _ & Hkeep & _).
split; [exact Hret|].
rewrite Hkeep. reflexivity.
Defined.
End DatasetClaims.

(** * The driver script *)

Section ScriptClaims.
Import Distiller Script.

Lemma construct_five_arguments a b c d e :
  construct [a; b; c; d; e] = Raises too_many_arguments.
Proof. reflexivity. Qed.

(** What is left of [main] once the arguments of the first constructor
    call are at hand *)
Lemma main_from_construct {A : Type} a b c d e (k : pydict pyobj -> Run A) tr :
  (lift (construct [a; b; c; d; e]) ≫= k) tr = (tr, Raises too_many_arguments).
Proof. by rewrite lift_bind, construct_five_arguments. Qed.

Local Ltac stop := eexists; split; [reflexivity | by right].

(** With [BaseDistiller] bound to the class of helper/distiller.py a run
    ends with an exception, at the latest at the first constructor call *)
Lemma script_stops_at_constructor w :
  base_distiller w = helper_BaseDistiller ->
  exists tr e,
    script w [] = (tr, Raises e) /\ (tr = [] \/ tr = [EvSeed 2022]).
Proof.
  intros Hcls. unfold script. rewrite lift_bind.
  destruct (imports w) as [[]|e]; [|by exists [], e; split; [|left]].
  unfold main. rewrite Hcls.
  change ((emit (EvSeed 2022);; ?k) []) with (k [EvSeed 2022]).
  exists [EvSeed 2022].
  rewrite lift_bind. destruct (yaml_config w) as [config|e]; [|stop].
  rewrite lift_bind.
  destruct (get_args _ _ config) as [args|e]; [|stop].
  rewrite lift_bind. destruct (getattr args "project") as [project|e];
    [|stop].
  rewrite lift_bind. destruct (getattr args "exp") as [exp|e]; [|stop].
  rewrite lift_bind. destruct (wandb_logger w project exp) as [wandb|e];
    [|stop].
  rewrite lift_bind.
  destruct (get_dataset_obj _ _ args) as [[dataset args']|e]; [|stop].
  rewrite lift_bind.
  destruct (data_module w dataset args') as [dm|e]; [|stop].
  rewrite lift_bind.
  destruct (get_teacher_and_student _ _ args') as [[teacher student]|e];
    [|stop].
  rewrite lift_bind. destruct (attn_adaptor w) as [attn|e]; [|stop].
  rewrite lift_bind. destruct (hidn_adaptor w) as [hidn|e]; [|stop].
  simpl cls_new. rewrite main_from_construct. stop.
Qed.



End ScriptClaims.

(** * The loss dictionary: keys, values, life cycle *)

Section LossDictionaryClaims.
Import Distiller.

Lemma eff_bind_Returns {S A B : Type} (c : Eff S A) (k : A -> Eff S B) st st' v :
  c st = (st', Returns v) -> (c ≫= k) st = k v st'.
Proof. unfold mbind, eff_bind. by intros ->. Qed.

Lemma eff_ret_bind {S A B : Type} (v : A) (k : A -> Eff S B) st :
  (mret v ≫= k) st = k v st.
Proof. reflexivity. Qed.

Lemma release_bind {B : Type} r (k : unit -> Eff Store.Heap B) h :
  (Store.release r ≫= k) h = k tt (delete r h).
Proof. reflexivity. Qed.

Lemma deref_present (r : nat) (h : Store.Heap) d :
  h !! r = Some d -> Store.deref r h = (h, Returns d).
Proof. unfold Store.deref. by intros ->. Qed.

Lemma setitem_present r k v (h : Store.Heap) d :
  h !! r = Some d ->
  Store.setitem r k v h = (<[r := set k v d]> h, Returns tt).
Proof.
  intros Hr. unfold Store.setitem.
  by rewrite (eff_bind_Returns _ _ _ _ _ (deref_present _ _ _ Hr)).
Qed.

Lemma popitem_present r k v (h : Store.Heap) d :
  h !! r = Some d -> get k d = Some v ->
  Store.popitem r k h = (<[r := remove k d]> h, Returns v).
Proof.
  intros Hr Hk. unfold Store.popitem.
  rewrite (eff_bind_Returns _ _ _ _ _ (deref_present _ _ _ Hr)).
  by rewrite lift_bind, (pop_present _ _ _ Hk).
Qed.

(** The loop on the object builds the dictionary the pure loop returns *)
Lemma store_compute_loss_loop ads out_t out_s mask r :
  forall acc ld (h : Store.Heap),
    h !! r = Some acc ->
    compute_loss_loop ads out_t out_s mask acc = Returns ld ->
    Store.compute_loss_loop ads out_t out_s mask r h
    = (<[r := ld]> h, Returns tt).
Proof.
  induction ads as [|a ads IH]; intros acc ld h Hr; simpl.
  - intros [= <-]. by rewrite insert_id.
  - rewrite lift_bind.
    destruct (call a _ _ mask) as [l|e]; [|done].
    rewrite bind_Returns. intros Hld.
    rewrite (eff_bind_Returns _ _ _ _ _ (setitem_present _ _ _ _ _ Hr)).
    rewrite (IH (set (name a) (w a * l)%Q acc) ld);
      [|by rewrite lookup_insert_eq|done].
    by rewrite insert_insert_eq.
Qed.

(** [compute_loss] creates one object, at an address not in use *)
Lemma store_compute_loss self out_t out_s mask ld (h : Store.Heap) :
  compute_loss self out_t out_s mask = Returns ld ->
  h !! fresh (dom h) = None
  /\ Store.compute_loss self out_t out_s mask h
     = (<[fresh (dom h) := ld]> h, Returns (fresh (dom h))).
Proof.
  intros Hld. split; [apply not_elem_of_dom, is_fresh|].
  unfold Store.compute_loss.
  rewrite (eff_bind_Returns _ _ h (<[fresh (dom h) := _]> h) (fresh (dom h))
             eq_refl).
  unfold compute_loss in Hld.
  rewrite (eff_bind_Returns _ _ _ _ _
             (store_compute_loss_loop _ _ _ _ _ _ _ _
                (lookup_insert_eq _ _ _) Hld)).
  by rewrite insert_insert_eq.
Qed.

(** The step on the object returns what the pure step returns and leaves
    the heap as it found it *)
Lemma store_training_step self batch idx log out_t out_s ld (h : Store.Heap) :
  forward self batch = Returns (out_t, out_s) ->
  compute_loss self out_t out_s (get "attention_mask" batch) = Returns ld ->
  exists loss,
    training_step self batch idx log = Returns (loss, (log ++ ld)%list)
    /\ Store.training_step self batch idx log h
       = (h, Returns (loss, (log ++ ld)%list)).
Proof.
  intros Hfwd Hld.
  destruct (compute_loss_inv _ _ _ _ _ Hld) as (Hnd & Hp & Ht & _).
  destruct (get "pred:nll" ld) as [p|] eqn:Hpred; [clear Hp|done].
  destruct (get "nll_loss_teacher" ld) as [t|] eqn:Hteacher; [clear Ht|done].
  eexists. split; [by apply (training_step_spec _ _ _ _ out_t out_s ld p t)|].
  destruct (store_compute_loss _ _ _ _ _ h Hld) as [Hfresh Hstore].
  set (r := fresh (dom h)) in *.
  unfold Store.training_step. rewrite lift_bind, Hfwd.
  rewrite (eff_bind_Returns _ _ _ _ _ Hstore).
  assert (forall d : pydict Q, (<[r := d]> h : Store.Heap) !! r = Some d)
    as Hat by (intros d; apply lookup_insert_eq).
  rewrite (eff_bind_Returns _ _ _ _ _ (deref_present _ _ _ (Hat ld))).
  rewrite (eff_bind_Returns _ _ _ _ _ (deref_present _ _ _ (Hat ld))).
  rewrite lift_bind. unfold getitem. rewrite Hpred.
  unfold log_items.
  assert (get "nll_loss_teacher" (remove "pred:nll" ld) = Some t) as Ht'
    by by rewrite get_remove_ne.
  destruct (Qeq_bool p 0).
  - rewrite (eff_bind_Returns _ _ _ (<[r := remove "nll_loss_teacher"
                                            (remove "pred:nll" ld)]> h) tt).
    2:{ rewrite (eff_bind_Returns _ _ _ _ _
                   (popitem_present _ _ _ _ _ (Hat ld) Hpred)).
        rewrite insert_insert_eq.
        rewrite (eff_bind_Returns _ _ _ _ _
                   (popitem_present _ _ _ _ _ (Hat _) Ht')).
        by rewrite insert_insert_eq. }
    rewrite (eff_bind_Returns _ _ _ _ _ (deref_present _ _ _ (Hat _))).
    assert (contains "nll_loss_teacher"
              (remove "nll_loss_teacher" (remove "pred:nll" ld)) = false)
      as ->.
    { unfold contains. rewrite get_remove_eq; [done|].
      by apply NoDup_keys_remove. }
    rewrite eff_ret_bind.
    rewrite (eff_bind_Returns _ _ _ _ _ (deref_present _ _ _ (Hat _))).
    rewrite release_bind.
    by rewrite delete_insert_id.
  - rewrite eff_ret_bind.
    rewrite (eff_bind_Returns _ _ _ _ _ (deref_present _ _ _ (Hat _))).
    assert (contains "nll_loss_teacher" ld = true) as ->
      by (unfold contains; by rewrite Hteacher).
    rewrite (eff_bind_Returns _ _ _ (<[r := remove "nll_loss_teacher" ld]> h)
               tt).
    2:{ rewrite (eff_bind_Returns _ _ _ _ _
                   (popitem_present _ _ _ _ _ (Hat ld) Hteacher)).
        by rewrite insert_insert_eq. }
    rewrite (eff_bind_Returns _ _ _ _ _ (deref_present _ _ _ (Hat _))).
    rewrite release_bind.
    by rewrite delete_insert_id.
Qed.

Lemma Qmult_neg_pos (a b : Q) : (a < 0 -> 0 < b -> a * b < 0)%Q.
Proof.
  intros Ha Hb.
  assert (0 < (- a) * b)%Q as H by (apply Qmult_lt_0_compat; lra).
  assert (a * b == - ((- a) * b))%Q as Heq by ring.
  rewrite Heq. lra.
Qed.

(** A product is non-negative exactly when its factors do not have opposite
    signs *)
Lemma Qmult_nonneg_iff (a b : Q) :
  (0 <= a * b <-> (0 <= a /\ 0 <= b) \/ (a <= 0 /\ b <= 0))%Q.
Proof.
  split.
  - intros H.
    destruct (Qlt_le_dec a 0) as [Ha|Ha], (Qlt_le_dec b 0) as [Hb|Hb].
    + right. split; by apply Qlt_le_weak.
    + right. split; [by apply Qlt_le_weak|].
      destruct (Qlt_le_dec 0 b) as [Hb'|Hb']; [|done].
      pose proof (Qmult_neg_pos a b Ha Hb'). lra.
    + right. split; [|by apply Qlt_le_weak].
      destruct (Qlt_le_dec 0 a) as [Ha'|Ha']; [|done].
      pose proof (Qmult_neg_pos b a Hb Ha') as Hlt.
      assert (a * b == b * a)%Q as Heq by ring. lra.
    + by left.
  - intros [[Ha Hb]|[Ha Hb]]; [by apply Qmult_le_0_compat|].
    assert (a * b == (- a) * (- b))%Q as -> by ring.
    apply Qmult_le_0_compat; lra.
Qed.

Lemma weighted_values_nonneg ads ls :
  length ads = length ls ->
  Forall (fun v => 0 <= v)%Q (values (weighted ads ls))
  <-> Forall2 (fun a l => (0 <= w a /\ 0 <= l) \/ (w a <= 0 /\ l <= 0))%Q
        ads ls.
Proof.
  revert ls. induction ads as [|a ads IH]; intros [|l ls] Hlen;
    simpl in Hlen; try discriminate.
  - split; constructor.
  - unfold weighted, values. simpl.
    rewrite Forall_cons, Forall2_cons, <- Qmult_nonneg_iff.
    apply and_iff_compat_l, IH. by injection Hlen.
Qed.

Lemma float_compute_loss_inv ads (acc : pydict float) kv :
  kv ∈ fold_left (fun loss_dict adaptor =>
                    set (FloatLoss.name adaptor)
                        (FloatLoss.w adaptor * FloatLoss.loss adaptor)%float
                        loss_dict) ads acc ->
  kv ∈ acc
  \/ exists a, a ∈ ads
       /\ kv = (FloatLoss.name a, (FloatLoss.w a * FloatLoss.loss a)%float).
Proof.
  revert acc. induction ads as [|a ads IH]; intros acc; simpl; [auto|].
  intros H. destruct (IH _ H) as [Hin|(a' & Ha' & ->)].
  - apply elem_of_set in Hin as [->|Hin]; [|auto].
    right. exists a. split; [left|done].
  - right. exists a'. split; [by right|done].
Qed.



End LossDictionaryClaims.

(** * More on the loss combination *)

Section LossExtras.
Import Distiller.
Implicit Types (ads : list Adaptor) (ls : list Q) (ld acc : pydict Q).

Lemma compute_loss_loop_app out_t out_s mask ads ads' acc :
  compute_loss_loop (ads ++ ads') out_t out_s mask acc
  = compute_loss_loop ads out_t out_s mask acc
    ≫= compute_loss_loop ads' out_t out_s mask.
Proof.
  revert acc. induction ads as [|a ads IH]; intros acc; simpl; [done|].
  destruct (call a _ _ mask) as [l|e]; [|done].
  rewrite !bind_Returns. apply IH.
Qed.

Lemma compute_loss_loop_get_other out_t out_s mask ads acc ld k :
  k ∉ map name ads ->
  compute_loss_loop ads out_t out_s mask acc = Returns ld ->
  get k ld = get k acc.
Proof.
  revert acc. induction ads as [|a ads IH]; intros acc Hk; simpl.
  - by intros [= <-].
  - simpl in Hk. apply not_elem_of_cons in Hk as [Hne Hk].
    destruct (call a _ _ mask) as [l|e]; [|done].
    rewrite bind_Returns. intros Hloop.
    rewrite (IH _ Hk Hloop). by apply get_set_ne.
Qed.

(** The pops of [training_step] never fail: when the forward pass and every
    adaptor return, the step returns, and what it logs is the whole loss
    dictionary, the teacher's term included. *)
Theorem training_step_returns self batch idx log out_t out_s ls :
  forward self batch = Returns (out_t, out_s) ->
  adaptor_losses out_t out_s (get "attention_mask" batch) (adaptors self) ls ->
  exists loss ld,
    compute_loss self out_t out_s (get "attention_mask" batch) = Returns ld
    /\ training_step self batch idx log = Returns (loss, (log ++ ld)%list)
    /\ get "nll_loss_teacher" ld <> None
    /\ length ld <= 2 + length (adaptors self).
Proof.
  intros Hfwd Hls.
  destruct (compute_loss_returns _ _ _ _ _ Hls) as [ld Hld].
  destruct (compute_loss_inv _ _ _ _ _ Hld) as (Hnd & Hp & Ht & Hin).
  destruct (get "pred:nll" ld) as [p|] eqn:Hpred; [|done].
  destruct (get "nll_loss_teacher" ld) as [t|] eqn:Hteacher; [|done].
  eexists _, ld. split; [done|]. split; [|split; [congruence|]].
  - apply (training_step_spec _ _ _ _ _ _ _ p t Hfwd Hld Hpred Hteacher).
  - clear -Hld. unfold compute_loss in Hld.
    assert (forall ads acc ld,
              compute_loss_loop ads out_t out_s (get "attention_mask" batch) acc
              = Returns ld ->
              length ld <= length acc + length ads) as Hlen.
    { clear. induction ads as [|a ads IH]; intros acc ld; simpl.
      - intros [= <-]. lia.
      - destruct (call a _ _ _) as [l|e]; [|done].
        rewrite bind_Returns. intros H. apply IH in H.
        assert (length (set (name a) (w a * l)%Q acc) <= S (length acc)).
        { clear. induction acc as [|[k v] acc IH]; simpl; [lia|].
          destruct (String.eqb (name a) k); simpl; lia. }
        lia. }
    apply Hlen in Hld. simpl in Hld. lia.
Qed.

(** Witness of [training_step_returns] on the labelled sample *)
Lemma training_step_returns_witness :
  exists loss ld,
    compute_loss labelled
      {| out_loss := Some 2%Q; out_features := [] |}
      {| out_loss := Some 1%Q; out_features := [] |} None = Returns ld
    /\ training_step labelled [] 0 [] = Returns (loss, ld).
Proof.
  destruct (training_step_returns labelled [] 0 []
              {| out_loss := Some 2%Q; out_features := [] |}
              {| out_loss := Some 1%Q; out_features := [] |} [4%Q])
    as (loss & ld & Hld & Hstep & _).
  - reflexivity.
  - repeat constructor.
  - exists loss, ld. split; [exact Hld | exact Hstep].
Defined.

(** The first adaptor that raises ends [compute_loss], and with it the
    training step, with its exception: the later adaptors are not called
    and nothing is returned. *)
Theorem compute_loss_first_failure self out_t out_s mask pre a post ls e :
  adaptors self = (pre ++ a :: post)%list ->
  adaptor_losses out_t out_s mask pre ls ->
  call a (out_get out_t (split_head (name a)))
         (out_get out_s (split_head (name a))) mask = Raises e ->
  compute_loss self out_t out_s mask = Raises e
  /\ (forall batch idx log,
        forward self batch = Returns (out_t, out_s) ->
        get "attention_mask" batch = mask ->
        training_step self batch idx log = Raises e).
Proof.
  intros Hads Hpre Ha.
  assert (compute_loss self out_t out_s mask = Raises e) as Hloss.
  { unfold compute_loss. rewrite Hads, compute_loss_loop_app.
    destruct (compute_loss_loop_returns _ _ _ _ _
                [("pred:nll", get_loss out_s);
                 ("nll_loss_teacher", get_loss out_t)] Hpre) as [d ->].
    rewrite bind_Returns. simpl. by rewrite Ha. }
  split; [done|].
  intros batch idx log Hfwd Hmask. unfold training_step.
  by rewrite Hfwd, bind_Returns, Hmask, Hloss.
Qed.

(** Witness of [compute_loss_first_failure]: the second of three adaptors
    raises *)
Lemma compute_loss_first_failure_witness :
  compute_loss
    (sample_distiller (Some 2%Q) (Some 1%Q)
       [sample_adaptor "attentions:mse" 1 4;
        {| name := "hidden_states:mse"; w := 1;
           call := fun _ _ _ => Raises (RuntimeError "shape mismatch") |};
        sample_adaptor "logits:ce" 1 3])
    {| out_loss := Some 2%Q; out_features := [] |}
    {| out_loss := Some 1%Q; out_features := [] |} None
  = Raises (RuntimeError "shape mismatch").
Proof.
  refine (proj1 (compute_loss_first_failure _ _ _ None
                   [sample_adaptor "attentions:mse" 1 4] _
                   [sample_adaptor "logits:ce" 1 3] [4%Q] _ _ _ _)).
  - reflexivity.
  - repeat constructor.
  - reflexivity.
Defined.

(** Of several adaptors with one name the last one counts: the dictionary
    holds its weighted loss under the name, also when the name is one of the
    two fixed keys. *)
Theorem compute_loss_last_name_wins self out_t out_s mask pre a post ls l ls' :
  adaptors self = (pre ++ a :: post)%list ->
  adaptor_losses out_t out_s mask pre ls ->
  adaptor_loss out_t out_s mask a l ->
  adaptor_losses out_t out_s mask post ls' ->
  name a ∉ map name post ->
  exists ld,
    compute_loss self out_t out_s mask = Returns ld
    /\ get (name a) ld = Some (w a * l)%Q.
Proof.
  intros Hads Hpre Ha Hpost Hlast.
  unfold compute_loss. rewrite Hads, compute_loss_loop_app.
  destruct (compute_loss_loop_returns _ _ _ _ _
              [("pred:nll", get_loss out_s);
               ("nll_loss_teacher", get_loss out_t)] Hpre) as [d ->].
  rewrite bind_Returns. simpl. unfold adaptor_loss in Ha.
  rewrite Ha, bind_Returns.
  destruct (compute_loss_loop_returns _ _ _ _ _
              (set (name a) (w a * l)%Q d) Hpost) as [ld Hld].
  exists ld. split; [done|].
  rewrite (compute_loss_loop_get_other _ _ _ _ _ _ _ Hlast Hld).
  apply get_set_eq.
Qed.

(** Witness of [compute_loss_last_name_wins]: an adaptor named ['pred:nll']
    replaces the student's loss *)
Lemma compute_loss_last_name_wins_witness :
  exists ld,
    compute_loss
      (sample_distiller (Some 2%Q) (Some 1%Q)
         [sample_adaptor "pred:nll" (1 # 2) 4])
      {| out_loss := Some 2%Q; out_features := [] |}
      {| out_loss := Some 1%Q; out_features := [] |} None = Returns ld
    /\ get "pred:nll" ld = Some ((1 # 2) * 4)%Q.
Proof.
  refine (compute_loss_last_name_wins
            (sample_distiller (Some 2%Q) (Some 1%Q)
               [sample_adaptor "pred:nll" (1 # 2) 4])
            _ _ None [] (sample_adaptor "pred:nll" (1 # 2) 4) [] [] 4%Q []
            _ _ _ _ _).
  - reflexivity.
  - constructor.
  - reflexivity.
  - constructor.
  - apply not_elem_of_nil.
Defined.
End LossExtras.

(** * The inter-layer variant *)

Section InterDistillerFacts.
Import Distiller.
Implicit Types (ld d : pydict Q).

Lemma remove_comm (k k' : string) d :
  remove k (remove k' d) = remove k' (remove k d).
Proof.
  induction d as [|[k0 v0] d IH]; simpl; [done|].
  destruct (String.eqb_spec k' k0) as [->|Hk'];
    destruct (String.eqb_spec k k0) as [->|Hk]; simpl;
    repeat match goal with
           | |- context [String.eqb ?a ?b] =>
               destruct (String.eqb_spec a b); try done
           end;
    by rewrite ?IH.
Qed.

Lemma fold_left_Qplus_acc (xs : list Q) (a : Q) :
  (fold_left Qplus xs a == a + py_sum xs)%Q.
Proof.
  unfold py_sum. revert a. induction xs as [|x xs IH]; intros a; simpl.
  - ring.
  - rewrite (IH (a + x)%Q), (IH (0 + x)%Q). ring.
Qed.

(** Taking one entry out of a dictionary takes its value out of the sum *)
Lemma py_sum_remove (k : string) (p : Q) d :
  get k d = Some p ->
  (py_sum (values d) == p + py_sum (values (remove k d)))%Q.
Proof.
  induction d as [|[k0 v0] d IH]; simpl; [done|].
  destruct (String.eqb_spec k k0) as [->|Hk].
  - intros [= ->]. unfold py_sum at 1. simpl.
    rewrite fold_left_Qplus_acc. ring.
  - intros Hget. unfold py_sum. simpl.
    rewrite !fold_left_Qplus_acc, (IH Hget). ring.
Qed.

Lemma inter_combine_spec ld (p t : Q) :
  NoDup (keys ld) ->
  get "pred:nll" ld = Some p ->
  get "nll_loss_teacher" ld = Some t ->
  InterDistiller.combine ld
  = Returns (py_sum (values
               (remove "nll_loss_teacher" (remove "pred:nll" ld)))).
Proof.
  intros Hnd Hp Ht. unfold InterDistiller.combine, getitem.
  rewrite Hp, bind_Returns.
  assert (get "nll_loss_teacher" (remove "pred:nll" ld) = Some t) as Ht'
    by (by rewrite get_remove_ne).
  destruct (Qeq_bool p 0).
  - rewrite (pop_present _ _ _ Hp), bind_Returns.
    rewrite (pop_present _ _ _ Ht'). simpl.
    assert (contains "nll_loss_teacher"
              (remove "nll_loss_teacher" (remove "pred:nll" ld)) = false)
      as ->; [|done].
    unfold contains.
    by rewrite get_remove_eq by by apply NoDup_keys_remove.
  - assert (contains "pred:nll" ld = true) as ->
      by (apply contains_true; by rewrite Hp).
    rewrite (pop_present _ _ _ Hp). simpl.
    assert (contains "nll_loss_teacher" (remove "pred:nll" ld) = true) as ->
      by (apply contains_true; by rewrite Ht').
    by rewrite (pop_present _ _ _ Ht').
Qed.

Lemma inter_training_step_spec self batch idx log out_t out_s ld :
  forward self batch = Returns (out_t, out_s) ->
  compute_loss self out_t out_s (get "attention_mask" batch) = Returns ld ->
  InterDistiller.training_step self batch idx log
  = Returns (py_sum (values
               (remove "nll_loss_teacher" (remove "pred:nll" ld))),
             (log ++ ld)%list).
Proof.
  intros Hfwd Hld.
  destruct (compute_loss_inv _ _ _ _ _ Hld) as (Hnd & Hp & Ht & _).
  destruct (get "pred:nll" ld) as [p|] eqn:Hpred; [|done].
  destruct (get "nll_loss_teacher" ld) as [t|] eqn:Hteacher; [|done].
  unfold InterDistiller.training_step.
  rewrite Hfwd, bind_Returns, Hld, bind_Returns.
  by rewrite (inter_combine_spec ld p t).
Qed.

(** [InterDistiller.training_step] never sums a prediction-layer term:
    whatever the prediction loss is, it returns the sum of the dictionary
    without ['pred:nll'] and ['nll_loss_teacher'], added in the order of the
    dictionary starting from 0; every entry of it is an adaptor's weighted
    loss; the whole dictionary is logged. With pairwise distinct adaptor
    names that differ from the fixed keys the sum runs over one weighted
    loss per adaptor. *)
Theorem inter_training_step_adaptors_only self batch idx log out_t out_s ld :
  forward self batch = Returns (out_t, out_s) ->
  compute_loss self out_t out_s (get "attention_mask" batch) = Returns ld ->
  let summed := remove "nll_loss_teacher" (remove "pred:nll" ld) in
  InterDistiller.training_step self batch idx log
    = Returns (sum_of (values summed), (log ++ ld)%list)
  /\ (forall k v, (k, v) ∈ summed ->
        k <> "pred:nll" /\ k <> "nll_loss_teacher"
        /\ exists a l, a ∈ adaptors self
             /\ adaptor_loss out_t out_s (get "attention_mask" batch) a l
             /\ k = name a /\ v = (w a * l)%Q)
  /\ (forall ls,
        well_named (adaptors self) ->
        adaptor_losses out_t out_s (get "attention_mask" batch)
          (adaptors self) ls ->
        InterDistiller.training_step self batch idx log
        = Returns (added_to 0 (values (weighted (adaptors self) ls)),
                   (log ++ ld)%list)).
Proof.
  intros Hfwd Hld summed.
  destruct (compute_loss_inv _ _ _ _ _ Hld) as (Hnd & Hp & Ht & Hin).
  destruct (get "pred:nll" ld) as [p|] eqn:Hpred; [clear Hp|done].
  destruct (get "nll_loss_teacher" ld) as [t|] eqn:Hteacher; [clear Ht|done].
  assert (NoDup (keys (remove "pred:nll" ld))) as Hnd'
    by by apply NoDup_keys_remove.
  assert (InterDistiller.training_step self batch idx log
          = Returns (sum_of (values summed), (log ++ ld)%list)) as Hstep.
  { rewrite (inter_training_step_spec _ _ _ _ out_t out_s ld Hfwd Hld).
    by rewrite py_sum_sum_of. }
  split; [done|]. split.
  - intros k v Hkv.
    pose proof (elem_of_remove_ne _ _ _ Hnd' Hkv) as Hk1.
    apply elem_of_remove in Hkv.
    pose proof (elem_of_remove_ne _ _ _ Hnd Hkv) as Hk2.
    apply elem_of_remove in Hkv. simpl in Hk1, Hk2.
    split; [done|]. split; [done|].
    destruct (Hin _ Hkv) as [[=]|[[=]|(a & l & Ha & Hl & [= -> ->])]];
      [done | done | by exists a, l].
  - intros ls Hwn Hls. rewrite Hstep. unfold summed.
    rewrite (compute_loss_well_named _ _ _ _ ls Hls Hwn) in Hld.
    by injection Hld as <-.
Qed.

(** Witness of [inter_training_step_adaptors_only]: on the labelled sample
    the prediction loss 1 is not part of the sum, which is 0 + 1/2 * 4 *)
Lemma inter_training_step_adaptors_only_witness :
  InterDistiller.training_step labelled [] 0 []
  = Returns ((0 + (1 # 2) * 4)%Q,
             [("pred:nll", 1%Q); ("nll_loss_teacher", 2%Q);
              ("attentions:mse", ((1 # 2) * 4)%Q)])
  /\ (0 + (1 # 2) * 4 == 2)%Q.
Proof.
  split; [|reflexivity].
  refine (proj1 (inter_training_step_adaptors_only labelled [] 0 []
                   {| out_loss := Some 2%Q; out_features := [] |}
                   {| out_loss := Some 1%Q; out_features := [] |}
                   [("pred:nll", 1%Q); ("nll_loss_teacher", 2%Q);
                    ("attentions:mse", ((1 # 2) * 4)%Q)] _ _)).
  - reflexivity.
  - reflexivity.
Defined.

(** The two training steps add the same terms in the same order and log the
    same entries: with [rest] the entries of the dictionary after the two
    fixed keys, [InterDistiller] returns [(0 + a1) + a2 + ...] over the
    values of [rest], and [BaseDistiller] returns the same when the
    prediction term is zero and [((0 + pred) + a1) + a2 + ...] when it is
    not. *)
Theorem base_loss_is_inter_loss_plus_pred self batch idx log out_t out_s ld
    (p : Q) :
  forward self batch = Returns (out_t, out_s) ->
  compute_loss self out_t out_s (get "attention_mask" batch) = Returns ld ->
  get "pred:nll" ld = Some p ->
  exists t rest,
    ld = ("pred:nll", p) :: ("nll_loss_teacher", t) :: rest
    /\ InterDistiller.training_step self batch idx log
       = Returns (added_to 0 (values rest), (log ++ ld)%list)
    /\ training_step self batch idx log
       = Returns ((if Qeq_bool p 0 then added_to 0 (values rest)
                   else added_to (0 + p) (values rest)),
                  (log ++ ld)%list).
Proof.
  intros Hfwd Hld Hpred.
  destruct (compute_loss_head _ _ _ _ _ Hld) as (p' & t & rest & Heq & Hp & Ht).
  assert (p' = p) as -> by (rewrite Heq in Hpred; by injection Hpred).
  assert (get "nll_loss_teacher" ld = Some t) as Hteacher by by rewrite Heq.
  exists t, rest. split; [done|]. split.
  - rewrite (inter_training_step_spec _ _ _ _ out_t out_s ld Hfwd Hld).
    rewrite py_sum_sum_of, Heq. reflexivity.
  - rewrite (training_step_spec _ _ _ _ _ _ _ p t Hfwd Hld Hpred Hteacher).
    rewrite py_sum_sum_of, Heq. by destruct (Qeq_bool p 0).
Qed.

(** Witness of [base_loss_is_inter_loss_plus_pred] on the labelled sample *)
Lemma base_loss_is_inter_loss_plus_pred_witness :
  InterDistiller.training_step labelled [] 0 []
  = Returns ((0 + (1 # 2) * 4)%Q,
             [("pred:nll", 1%Q); ("nll_loss_teacher", 2%Q);
              ("attentions:mse", ((1 # 2) * 4)%Q)])
  /\ training_step labelled [] 0 []
     = Returns ((0 + 1 + (1 # 2) * 4)%Q,
                [("pred:nll", 1%Q); ("nll_loss_teacher", 2%Q);
                 ("attentions:mse", ((1 # 2) * 4)%Q)]).
Proof.
  destruct (base_loss_is_inter_loss_plus_pred labelled [] 0 []
              {| out_loss := Some 2%Q; out_features := [] |}
              {| out_loss := Some 1%Q; out_features := [] |}
              [("pred:nll", 1%Q); ("nll_loss_teacher", 2%Q);
               ("attentions:mse", ((1 # 2) * 4)%Q)] 1%Q
              eq_refl eq_refl eq_refl)
    as (t & rest & Heq & Hinter & Hbase).
  injection Heq as <- <-. split; [exact Hinter | exact Hbase].
Defined.
End InterDistillerFacts.

(** * Feature names, the attention plot and prediction *)

Section FeatureNames.
Import Distiller.

Lemma split_head_colon_free (s : string) : colon_free s -> split_head s = s.
Proof.
  unfold colon_free. induction s as [|c s IH]; simpl; [done|].
  rewrite not_elem_of_cons. intros [Hc Hs].
  destruct (Ascii.eqb_spec c ":"%char) as [->|_]; [done|]. by rewrite IH.
Qed.

Lemma split_head_before_colon (f k : string) :
  colon_free f -> split_head (f ++ ":" ++ k) = f.
Proof.
  unfold colon_free. induction f as [|c f IH]; simpl; [done|].
  rewrite not_elem_of_cons. intros [Hc Hf].
  destruct (Ascii.eqb_spec c ":"%char) as [->|_]; [done|]. by rewrite IH.
Qed.

(** In [compute_loss] an adaptor named ["feature:kind"] is called on the
    teacher's and the student's entry ["feature"], the part of its name
    before the first colon (the whole name when it has no colon): when that
    call raises, so does [compute_loss]; when it returns a loss, and the
    adaptors before and after it return theirs, the dictionary holds the
    weight times this loss under the adaptor's name, no later adaptor
    having the same name. *)
Theorem adaptor_sees_named_feature self out_t out_s mask pre a post ls ls'
    (f : string) :
  adaptors self = (pre ++ a :: post)%list ->
  colon_free f ->
  (name a = f \/ exists k, name a = f ++ ":" ++ k) ->
  adaptor_losses out_t out_s mask pre ls ->
  adaptor_losses out_t out_s mask post ls' ->
  name a ∉ map name post ->
  (forall e,
     call a (out_get out_t f) (out_get out_s f) mask = Raises e ->
     compute_loss self out_t out_s mask = Raises e)
  /\ (forall l,
        call a (out_get out_t f) (out_get out_s f) mask = Returns l ->
        exists ld,
          compute_loss self out_t out_s mask = Returns ld
          /\ get (name a) ld = Some (w a * l)%Q).
Proof.
  intros Hads Hf Hname Hpre Hpost Hlast.
  assert (split_head (name a) = f) as Hhead.
  { destruct Hname as [->|[k ->]].
    - by apply split_head_colon_free.
    - by apply split_head_before_colon. }
  unfold compute_loss. rewrite Hads, compute_loss_loop_app.
  destruct (compute_loss_loop_returns _ _ _ _ _
              [("pred:nll", get_loss out_s);
               ("nll_loss_teacher", get_loss out_t)] Hpre) as [d ->].
  rewrite bind_Returns. simpl. rewrite Hhead. split.
  - by intros e ->.
  - intros l ->. rewrite bind_Returns.
    destruct (compute_loss_loop_returns _ _ _ _ _
                (set (name a) (w a * l)%Q d) Hpost) as [ld Hld].
    exists ld. split; [done|].
    rewrite (compute_loss_loop_get_other _ _ _ _ _ _ _ Hlast Hld).
    apply get_set_eq.
Qed.

(** Witness of [adaptor_sees_named_feature]: an adaptor named
    ['attentions:mse'], of weight 1/2, that returns the first number of the
    student's ['attentions'], here 5 *)
Lemma adaptor_sees_named_feature_witness :
  exists ld,
    compute_loss
      (sample_distiller None None [first_of_student "attentions:mse" (1 # 2)])
      {| out_loss := None;
         out_features :=
           [("attentions", {| shape := [1%nat]; data := [3%Q] |})] |}
      {| out_loss := None;
         out_features :=
           [("attentions", {| shape := [1%nat]; data := [5%Q] |})] |}
      None = Returns ld
    /\ get "attentions:mse" ld = Some ((1 # 2) * 5)%Q.
Proof.
  refine (proj2 (adaptor_sees_named_feature
                   (sample_distiller None None
                      [first_of_student "attentions:mse" (1 # 2)])
                   {| out_loss := None;
                      out_features :=
                        [("attentions",
                          {| shape := [1%nat]; data := [3%Q] |})] |}
                   {| out_loss := None;
                      out_features :=
                        [("attentions",
                          {| shape := [1%nat]; data := [5%Q] |})] |}
                   None [] (first_of_student "attentions:mse" (1 # 2))
                   [] [] [] "attentions" eq_refl _ _ _ _ _) 5%Q eq_refl).
  - unfold colon_free. simpl. rewrite !not_elem_of_cons.
    repeat split; try discriminate. apply not_elem_of_nil.
  - right. by exists "mse".
  - constructor.
  - constructor.
  - apply not_elem_of_nil.
Defined.
End FeatureNames.

Section AttentionPlot.
Import Distiller.

Lemma first_zero_loop_Some (row : list Q) (i r : nat) :
  first_zero_loop i row = Some r ->
  i <= r
  /\ (exists x, row !! (r - i) = Some x /\ (x == 0)%Q)
  /\ (forall j x, j < r - i -> row !! j = Some x -> ~ (x == 0)%Q).
Proof.
  revert i. induction row as [|item row IH]; intros i; simpl; [done|].
  destruct (Qeq_bool item 0) eqn:Hz.
  - intros [= <-]. split; [lia|]. rewrite Nat.sub_diag. split.
    + exists item. split; [done|]. by apply Qeq_bool_iff.
    + intros j x Hj. lia.
  - intros H. destruct (IH _ H) as (Hle & (x & Hx & Hx0) & Hbefore).
    split; [lia|]. replace (r - i) with (S (r - S i)) by lia. split.
    + by exists x.
    + intros [|j] y Hj; simpl.
      * intros [= <-] Hy. apply Qeq_bool_iff in Hy. congruence.
      * apply Hbefore. lia.
Qed.

Lemma first_zero_loop_None (row : list Q) (i : nat) :
  first_zero_loop i row = None -> Forall (fun x => ~ (x == 0)%Q) row.
Proof.
  revert i. induction row as [|item row IH]; intros i; simpl; [constructor|].
  destruct (Qeq_bool item 0) eqn:Hz; [done|].
  intros H. constructor; [|by eapply IH].
  intros Hy. apply Qeq_bool_iff in Hy. congruence.
Qed.

(** The axis of the attention plot in [validation_step] stops at the first
    zero of the mask row: no item before [first_zero_index] is zero, the
    item at it is zero unless the row has no zero at all, and a row without
    a zero (no padding) gives index 0, hence an empty axis. *)
Theorem first_zero_index_spec (row : list Q) :
  (forall j x, j < first_zero_index row -> row !! j = Some x -> ~ (x == 0)%Q)
  /\ ((exists x, row !! first_zero_index row = Some x /\ (x == 0)%Q)
      \/ (Forall (fun x => ~ (x == 0)%Q) row /\ first_zero_index row = 0
          /\ axis row = []))
  /\ axis row = seq 0 (first_zero_index row)
  /\ length (axis row) = first_zero_index row.
Proof.
  unfold axis, first_zero_index.
  destruct (first_zero_loop 0 row) as [r|] eqn:Hloop.
  - destruct (first_zero_loop_Some _ _ _ Hloop) as (_ & Hat & Hbefore).
    rewrite Nat.sub_0_r in Hat, Hbefore.
    split; [done|]. split; [by left|]. split; [done|]. apply length_seq.
  - split; [intros j x Hj; lia|]. split; [|done].
    right. split; [|done]. by eapply first_zero_loop_None.
Qed.

(** For a mask row of [n] ones followed by padding zeros the axis is
    [0 .. n-1]; for a row of ones only it is empty. *)
Theorem axis_of_padded_row (n m : nat) :
  axis (replicate n 1%Q ++ replicate (S m) 0%Q) = seq 0 n
  /\ axis (replicate n 1%Q) = [].
Proof.
  unfold axis, first_zero_index.
  assert (forall i rest, first_zero_loop i (replicate n 1%Q ++ rest)
                         = first_zero_loop (n + i) rest) as Hones.
  { induction n as [|n IH]; intros i rest; simpl; [done|].
    rewrite IH. f_equal. lia. }
  split.
  - rewrite Hones. simpl. by rewrite Nat.add_0_r.
  - rewrite <- (app_nil_r (replicate n 1%Q)), Hones. done.
Qed.
End AttentionPlot.

Section PredictStep.
Import Distiller.
Variable argmax : Tensor -> result Tensor.

(** [predict_step] needs a labelled batch: without a ['labels'] entry it
    raises [KeyError]; with one, the student (and only the student) is run
    on the batch without the labels, the caller's batch loses the entry, and
    the prediction is the argmax of the student's logits. *)
Theorem predict_step_drops_labels self batch idx :
  (get "labels" batch = None ->
   predict_step argmax self batch idx = Raises (KeyError "labels"))
  /\ (forall labels out_s logits pred,
        get "labels" batch = Some labels ->
        m_forward (student self) (remove "labels" batch) = Returns out_s ->
        get "logits" (out_features out_s) = Some logits ->
        argmax logits = Returns pred ->
        predict_step argmax self batch idx
        = Returns (pred, remove "labels" batch))
  /\ (forall pred batch',
        predict_step argmax self batch idx = Returns (pred, batch') ->
        batch' = remove "labels" batch
        /\ (NoDup (keys batch) -> get "labels" batch' = None)
        /\ exists out_s logits,
             m_forward (student self) batch' = Returns out_s
             /\ get "logits" (out_features out_s) = Some logits
             /\ argmax logits = Returns pred).
Proof.
  unfold predict_step, pop. split; [|split].
  - by intros ->.
  - intros labels out_s logits pred -> Hfwd Hlogits Hmax.
    rewrite bind_Returns, Hfwd, bind_Returns, Hlogits, Hmax. done.
  - intros pred batch'.
    destruct (get "labels" batch) as [labels|]; [|done].
    rewrite bind_Returns.
    destruct (m_forward (student self) _) as [out_s|] eqn:Hfwd; [|done].
    rewrite bind_Returns.
    destruct (get "logits" (out_features out_s)) as [logits|] eqn:Hl; [|done].
    destruct (argmax logits) as [p|] eqn:Hmax; [|done].
    rewrite bind_Returns. intros [= <- <-].
    split; [done|]. split; [apply get_remove_eq|]. by exists out_s, logits.
Qed.
End PredictStep.

(** Witness of [predict_step_drops_labels]: a batch without labels *)
Lemma predict_step_drops_labels_witness :
  Distiller.predict_step (fun t => Returns t) labelled
    [("input_ids", scalar_tensor 7)] 0
  = Raises (KeyError "labels").
Proof.
  exact (proj1 (predict_step_drops_labels (fun t => Returns t) labelled
                  [("input_ids", scalar_tensor 7)] 0) eq_refl).
Defined.

(** * Optimizer parameter groups *)

Section OptimizerFacts.
Import Distiller.

Lemma prefix_app (sub s : string) :
  String.prefix sub s = true <-> exists b, s = sub ++ b.
Proof.
  revert s. induction sub as [|c sub IH]; intros s.
  - split; [by exists s | by destruct s].
  - destruct s as [|c' s]; simpl; [split; [done | intros [b [=]]]|].
    destruct (ascii_dec c c') as [<-|Hc].
    + rewrite IH. split; intros [b Hb]; exists b;
        [by rewrite Hb | by injection Hb].
    + split; [done | intros [b [= ? _]]; done].
Qed.

(** [is_substring] is Python's [sub in s] *)
Lemma is_substring_spec (sub s : string) :
  is_substring sub s = true <-> exists a b, s = a ++ sub ++ b.
Proof.
  induction s as [|c s IH].
  - change (is_substring sub "") with (String.prefix sub "" || false).
    rewrite orb_false_r, prefix_app. split.
    + intros [b ->]. by exists "", b.
    + intros (a & b & H). destruct a as [|? a]; [by exists b | done].
  - change (is_substring sub (String c s))
      with (String.prefix sub (String c s) || is_substring sub s).
    rewrite orb_true_iff, IH, prefix_app. split.
    + intros [[b Hb]|(a & b & ->)];
        [by exists "", b | by exists (String c a), b].
    + intros (a & b & H). destruct a as [|c' a].
      * left. by exists b.
      * right. injection H as _ ->. by exists a, b.
Qed.

Lemma filter_split_Permutation {A : Type} (P : A -> bool) (l : list A) :
  (List.filter (fun x => negb (P x)) l ++ List.filter P l)%list ≡ₚ l.
Proof.
  induction l as [|x l IH]; simpl; [done|].
  destruct (P x); simpl.
  - rewrite <- Permutation_middle. by constructor.
  - by constructor.
Qed.

(** The two parameter groups split the selected parameters: each selected
    parameter is in exactly one group, the second group (weight decay 0.0)
    holding those whose name contains ['bias'] or ['LayerNorm.weight'], the
    first (weight decay [hparams.weight_decay]) the others. Without the
    attribute [weight_decay] the grouping raises [AttributeError]. *)
Theorem optimizer_groups_partition hparams (parameters : list (string * Tensor)) :
  (hparams !! "weight_decay" = None ->
   optimizer_grouped_parameters hparams parameters
   = Raises (AttributeError "weight_decay"))
  /\ (forall wd, hparams !! "weight_decay" = Some wd ->
      exists decayed not_decayed,
        optimizer_grouped_parameters hparams parameters
        = Returns [ {| group_params := map snd decayed;
                       group_weight_decay := wd |};
                    {| group_params := map snd not_decayed;
                       group_weight_decay := VFloat 0 |} ]
        /\ (decayed ++ not_decayed)%list ≡ₚ parameters
        /\ Forall (fun np => ~ (exists a b, np.1 = a ++ "bias" ++ b)
                             /\ ~ (exists a b,
                                     np.1 = a ++ "LayerNorm.weight" ++ b))
             decayed
        /\ Forall (fun np => (exists a b, np.1 = a ++ "bias" ++ b)
                             \/ (exists a b,
                                   np.1 = a ++ "LayerNorm.weight" ++ b))
             not_decayed).
Proof.
  unfold optimizer_grouped_parameters, getattr. split; [by intros ->|].
  intros wd ->. eexists _, _. split; [reflexivity|].
  split; [apply filter_split_Permutation|]. split.
  - apply List.Forall_forall. intros np Hnp.
    apply List.filter_In in Hnp as [_ Hnp]. apply negb_true_iff in Hnp.
    unfold any_no_decay, no_decay in Hnp. simpl in Hnp.
    rewrite !orb_false_iff in Hnp. destruct Hnp as (H1 & H2 & _).
    split; intros H; apply is_substring_spec in H; congruence.
  - apply List.Forall_forall. intros np Hnp.
    apply List.filter_In in Hnp as [_ Hnp].
    unfold any_no_decay, no_decay in Hnp. simpl in Hnp.
    rewrite !orb_true_iff in Hnp.
    destruct Hnp as [H|[H|H]]; [left | right | done];
      by apply is_substring_spec.
Qed.

Section WithLibraries.
Variables Optimizer Scheduler : Type.
Variable AdamW : list ParamGroup -> pyval -> pyval -> result Optimizer.
Variable get_linear_schedule_with_warmup :
  Optimizer -> pyval -> pyval -> result Scheduler.

Abbreviation configure_selected' :=
  (configure_selected Optimizer Scheduler AdamW get_linear_schedule_with_warmup).

Lemma configure_selected_inv hparams parameters opts scheds :
  configure_selected' hparams parameters = Returns (opts, scheds) ->
  exists wd lr eps steps warmup optimizer scheduler,
    hparams !! "weight_decay" = Some wd
    /\ hparams !! "learning_rate" = Some lr
    /\ hparams !! "eps" = Some eps
    /\ hparams !! "num_training_steps" = Some steps
    /\ hparams !! "num_warmup_steps" = Some warmup
    /\ AdamW
         [ {| group_params :=
                map snd (List.filter (fun np => negb (any_no_decay np.1))
                           parameters);
              group_weight_decay := wd |};
           {| group_params :=
                map snd (List.filter (fun np => any_no_decay np.1) parameters);
              group_weight_decay := VFloat 0 |} ] lr eps
       = Returns optimizer
    /\ get_linear_schedule_with_warmup optimizer steps warmup
       = Returns scheduler
    /\ opts = [optimizer] /\ scheds = [(scheduler, "step")].
Proof.
  unfold configure_selected, optimizer_grouped_parameters, getattr.
  destruct (hparams !! "weight_decay") as [wd|]; [|done].
  rewrite !bind_Returns.
  destruct (hparams !! "learning_rate") as [lr|]; [|done].
  rewrite bind_Returns.
  destruct (hparams !! "eps") as [eps|]; [|done]. rewrite bind_Returns.
  destruct (AdamW _ lr eps) as [optimizer|] eqn:Hopt; [|done].
  rewrite bind_Returns.
  destruct (hparams !! "num_training_steps") as [steps|]; [|done].
  rewrite bind_Returns.
  destruct (hparams !! "num_warmup_steps") as [warmup|]; [|done].
  rewrite bind_Returns.
  destruct (get_linear_schedule_with_warmup optimizer steps warmup)
    as [scheduler|] eqn:Hsch; [|done].
  rewrite bind_Returns. intros [= <- <-].
  by exists wd, lr, eps, steps, warmup, optimizer, scheduler.
Qed.

Lemma elem_of_groups (P : string -> bool) parameters (p : Tensor) :
  p ∈ (map snd (List.filter (fun np => negb (P np.1)) parameters)
       ++ map snd (List.filter (fun np => P np.1) parameters))%list
  <-> exists n, (n, p) ∈ parameters.
Proof.
  rewrite <- map_app, (filter_split_Permutation (fun np => P np.1)).
  rewrite list_elem_of_fmap. split.
  - intros [[n p'] [-> H]]. by exists n.
  - intros [n H]. by exists (n, p).
Qed.

(** [BaseDistiller.configure_optimizers] never hands a teacher parameter to
    the optimizer: when it returns, the optimizer was built from two groups
    that hold exactly the parameters whose name does not contain
    ['teacher'], and the scheduler steps once per training step. *)
Theorem base_optimizer_skips_teacher self named_parameters opts scheds :
  configure_optimizers Optimizer Scheduler AdamW
    get_linear_schedule_with_warmup self named_parameters
  = Returns (opts, scheds) ->
  exists decayed not_decayed lr eps optimizer scheduler,
    AdamW [decayed; not_decayed] lr eps = Returns optimizer
    /\ opts = [optimizer] /\ scheds = [(scheduler, "step")]
    /\ hparams self !! "weight_decay" = Some (group_weight_decay decayed)
    /\ group_weight_decay not_decayed = VFloat 0
    /\ (forall p,
          p ∈ (group_params decayed ++ group_params not_decayed)%list
          <-> exists n, (n, p) ∈ named_parameters
                /\ ~ (exists a b, n = a ++ "teacher" ++ b))
    /\ length (group_params decayed) + length (group_params not_decayed)
       = length (List.filter
                   (fun np => negb (is_substring "teacher" np.1))
                   named_parameters).
Proof.
  unfold configure_optimizers. intros H.
  apply configure_selected_inv in H
    as (wd & lr & eps & steps & warmup & optimizer & scheduler
        & Hwd & _ & _ & _ & _ & Hopt & _ & -> & ->).
  eexists _, _, lr, eps, optimizer, scheduler.
  split; [exact Hopt|]. split; [done|]. split; [done|].
  split; [done|]. split; [done|]. simpl. split.
  - intros p. rewrite (elem_of_groups any_no_decay). split.
    + intros [n Hn]. rewrite list_elem_of_In in Hn.
      apply List.filter_In in Hn as [Hn Ht]. exists n.
      rewrite list_elem_of_In. split; [done|].
      intros Hsub. apply is_substring_spec in Hsub. simpl in Ht.
      by rewrite Hsub in Ht.
    + intros (n & Hn & Ht). exists n. rewrite list_elem_of_In.
      apply List.filter_In. rewrite <- list_elem_of_In. split; [done|].
      simpl. destruct (is_substring "teacher" n) eqn:E; [|done].
      exfalso. apply Ht. by apply is_substring_spec.
  - rewrite <- length_app, <- map_app, length_map.
    by rewrite (filter_split_Permutation (fun np => any_no_decay np.1)).
Qed.

(** [PredDistiller.configure_optimizers] optimises every parameter whose
    name contains ['classifier'] and no other; the teacher's classifier is
    not excluded. *)
Theorem pred_optimizer_takes_classifiers self named_parameters opts scheds :
  PredDistiller.configure_optimizers AdamW get_linear_schedule_with_warmup
    self named_parameters
  = Returns (opts, scheds) ->
  exists decayed not_decayed lr eps optimizer,
    AdamW [decayed; not_decayed] lr eps = Returns optimizer
    /\ opts = [optimizer]
    /\ (forall p,
          p ∈ (group_params decayed ++ group_params not_decayed)%list
          <-> exists n, (n, p) ∈ named_parameters
                /\ exists a b, n = a ++ "classifier" ++ b).
Proof.
  unfold PredDistiller.configure_optimizers. intros H.
  apply configure_selected_inv in H
    as (wd & lr & eps & steps & warmup & optimizer & scheduler
        & _ & _ & _ & _ & _ & Hopt & _ & -> & _).
  eexists _, _, lr, eps, optimizer.
  split; [exact Hopt|]. split; [done|]. simpl.
  intros p. rewrite (elem_of_groups any_no_decay). split.
  - intros [n Hn]. rewrite list_elem_of_In in Hn.
    apply List.filter_In in Hn as [Hn Ht]. exists n.
    rewrite list_elem_of_In. split; [done|]. by apply is_substring_spec.
  - intros (n & Hn & Ht). exists n. rewrite list_elem_of_In.
    apply List.filter_In. rewrite <- list_elem_of_In. split; [done|].
    by apply is_substring_spec.
Qed.

(** [configure_optimizers] reads five hyperparameters: it returns only if
    all of them are set, it returns when they are and the two library calls
    return, and with the optimizer built and [num_training_steps] missing it
    raises [AttributeError]. *)
Theorem configure_optimizers_needs_hparams self named_parameters :
  (returns (configure_optimizers Optimizer Scheduler AdamW
              get_linear_schedule_with_warmup self named_parameters) ->
   Forall (fun attr => is_Some (hparams self !! attr))
     ["weight_decay"; "learning_rate"; "eps";
      "num_training_steps"; "num_warmup_steps"])
  /\ (Forall (fun attr => is_Some (hparams self !! attr))
        ["weight_decay"; "learning_rate"; "eps";
         "num_training_steps"; "num_warmup_steps"] ->
      (forall groups lr eps, returns (AdamW groups lr eps)) ->
      (forall o steps warmup,
         returns (get_linear_schedule_with_warmup o steps warmup)) ->
      returns (configure_optimizers Optimizer Scheduler AdamW
                 get_linear_schedule_with_warmup self named_parameters))
  /\ (is_Some (hparams self !! "weight_decay") ->
      is_Some (hparams self !! "learning_rate") ->
      is_Some (hparams self !! "eps") ->
      (forall groups lr eps, returns (AdamW groups lr eps)) ->
      hparams self !! "num_training_steps" = None ->
      configure_optimizers Optimizer Scheduler AdamW
        get_linear_schedule_with_warmup self named_parameters
      = Raises (AttributeError "num_training_steps")).
Proof.
  unfold configure_optimizers. split; [|split].
  - intros [[opts scheds] H].
    apply configure_selected_inv in H
      as (wd & lr & eps & steps & warmup & optimizer & scheduler
          & H1 & H2 & H3 & H4 & H5 & _).
    repeat (apply Forall_cons; split; [by eexists|]). constructor.
  - intros Hall Hadam Hsched.
    apply Forall_cons in Hall as [[wd Hwd] Hall].
    apply Forall_cons in Hall as [[lr Hlr] Hall].
    apply Forall_cons in Hall as [[eps Heps] Hall].
    apply Forall_cons in Hall as [[steps Hsteps] Hall].
    apply Forall_cons in Hall as [[warmup Hwarmup] _].
    unfold configure_selected, optimizer_grouped_parameters, getattr.
    rewrite Hwd, !bind_Returns, Hlr, bind_Returns, Heps, bind_Returns.
    destruct (Hadam [ {| group_params :=
                           map snd (List.filter
                                      (fun np => negb (any_no_decay np.1))
                                      (List.filter
                                         (fun np =>
                                            negb (is_substring "teacher" np.1))
                                         named_parameters));
                         group_weight_decay := wd |};
                      {| group_params :=
                           map snd (List.filter
                                      (fun np => any_no_decay np.1)
                                      (List.filter
                                         (fun np =>
                                            negb (is_substring "teacher" np.1))
                                         named_parameters));
                         group_weight_decay := VFloat 0 |} ] lr eps)
      as [optimizer ->].
    rewrite bind_Returns, Hsteps, bind_Returns, Hwarmup, bind_Returns.
    destruct (Hsched optimizer steps warmup) as [scheduler ->].
    rewrite bind_Returns. by eexists.
  - intros [wd Hwd] [lr Hlr] [eps Heps] Hadam Hnone.
    unfold configure_selected, optimizer_grouped_parameters, getattr.
    rewrite Hwd, !bind_Returns, Hlr, bind_Returns, Heps, bind_Returns.
    destruct (Hadam [ {| group_params :=
                           map snd (List.filter
                                      (fun np => negb (any_no_decay np.1))
                                      (List.filter
                                         (fun np =>
                                            negb (is_substring "teacher" np.1))
                                         named_parameters));
                         group_weight_decay := wd |};
                      {| group_params :=
                           map snd (List.filter
                                      (fun np => any_no_decay np.1)
                                      (List.filter
                                         (fun np =>
                                            negb (is_substring "teacher" np.1))
                                         named_parameters));
                         group_weight_decay := VFloat 0 |} ] lr eps)
      as [optimizer ->].
    by rewrite bind_Returns, Hnone.
Qed.
End WithLibraries.

(** Witness of [base_optimizer_skips_teacher]: of the six sample parameters
    the four of the student reach the optimizer *)
Lemma base_optimizer_skips_teacher_witness :
  exists decayed not_decayed lr eps optimizer,
    recording_AdamW [decayed; not_decayed] lr eps = Returns optimizer
    /\ length (group_params decayed) + length (group_params not_decayed) = 4.
Proof.
  destruct (base_optimizer_skips_teacher _ _ recording_AdamW recording_schedule
              sample_optimizing sample_named_parameters
              [([ {| group_params := [scalar_tensor 3; scalar_tensor 6];
                     group_weight_decay := VFloat (5 # 100000) |};
                  {| group_params := [scalar_tensor 4; scalar_tensor 5];
                     group_weight_decay := VFloat 0 |} ],
                VFloat (1 # 10000), VFloat (1 # 100000000))]
              [(([ {| group_params := [scalar_tensor 3; scalar_tensor 6];
                      group_weight_decay := VFloat (5 # 100000) |};
                   {| group_params := [scalar_tensor 4; scalar_tensor 5];
                      group_weight_decay := VFloat 0 |} ],
                 VFloat (1 # 10000), VFloat (1 # 100000000)),
                VInt 1000, VInt 100, "step")] eq_refl)
    as (decayed & not_decayed & lr & eps & optimizer & _ & Hopt & _ & _ & _
        & _ & _ & Hlen).
  exists decayed, not_decayed, lr, eps, optimizer.
  split; [exact Hopt | exact Hlen].
Defined.

(** Witness of [pred_optimizer_takes_classifiers]: the teacher's classifier
    weight is among the optimised parameters *)
Lemma pred_optimizer_takes_classifiers_witness :
  exists decayed not_decayed lr eps optimizer,
    recording_AdamW [decayed; not_decayed] lr eps = Returns optimizer
    /\ scalar_tensor 2
       ∈ (group_params decayed ++ group_params not_decayed)%list.
Proof.
  destruct (pred_optimizer_takes_classifiers _ _ recording_AdamW
              recording_schedule sample_optimizing sample_named_parameters
              [([ {| group_params := [scalar_tensor 2; scalar_tensor 6];
                     group_weight_decay := VFloat (5 # 100000) |};
                  {| group_params := [scalar_tensor 5];
                     group_weight_decay := VFloat 0 |} ],
                VFloat (1 # 10000), VFloat (1 # 100000000))]
              [(([ {| group_params := [scalar_tensor 2; scalar_tensor 6];
                      group_weight_decay := VFloat (5 # 100000) |};
                   {| group_params := [scalar_tensor 5];
                      group_weight_decay := VFloat 0 |} ],
                 VFloat (1 # 10000), VFloat (1 # 100000000)),
                VInt 1000, VInt 100, "step")] eq_refl)
    as (decayed & not_decayed & lr & eps & optimizer & Hopt & _ & Hin).
  exists decayed, not_decayed, lr, eps, optimizer.
  split; [exact Hopt|]. apply Hin.
  exists "teacher.classifier.weight". split.
  - unfold sample_named_parameters. rewrite !elem_of_cons. auto.
  - by exists "teacher.", ".weight".
Defined.
End OptimizerFacts.

(** * Removing checkpoints and the adapter of the pretrainer *)

Section CheckpointExtras.
Import Distiller.

Lemma append_cons (x : ascii) (a b : string) :
  String x a ++ b = String x (a ++ b).
Proof. reflexivity. Qed.

Lemma string_app_assoc (a b c : string) : (a ++ b) ++ c = a ++ (b ++ c).
Proof.
  induction a as [|x a IH]; [done|]. by rewrite !append_cons, IH.
Qed.

Lemma prefix_append (a b : string) : String.prefix a (a ++ b) = true.
Proof.
  induction a as [|x a IH]; [by destruct b|].
  rewrite append_cons. simpl. by destruct (ascii_dec x x).
Qed.

Lemma prefix_cons (c : ascii) (a b : string) :
  String.prefix (String c a) (String c b) = String.prefix a b.
Proof. simpl. by destruct (ascii_dec c c). Qed.

(** A path extended by a slash and a name lies under what it addresses *)
Lemma prefix_rstrip_slash (path x : string) :
  String.prefix (rstrip_slash path ++ "/") (path ++ "/" ++ x) = true.
Proof.
  induction path as [|c path IH]; [apply (prefix_append "/" x)|].
  rewrite append_cons. cbn [rstrip_slash].
  destruct (rstrip_slash path) as [|c' stripped].
  - destruct (Ascii.eqb_spec c "/"%char) as [->|_].
    + change ("" ++ "/") with "/". by rewrite prefix_cons; destruct (path ++ _).
    + rewrite !append_cons, prefix_cons. exact IH.
  - rewrite !append_cons, prefix_cons. rewrite append_cons in IH. exact IH.
Qed.

Lemma under_self path : under path path.
Proof.
  unfold under, at_or_under. induction path as [|c path IH]; [by left|].
  cbn [rstrip_slash].
  destruct (rstrip_slash path) as [|c' stripped].
  - destruct (Ascii.eqb_spec c "/"%char) as [->|_].
    + right. change ("" ++ "/") with "/". by rewrite prefix_cons; destruct path.
    + destruct IH as [->|IH]; [by left|].
      right. by rewrite !append_cons, prefix_cons.
  - destruct IH as [->|IH]; [by left|].
    right. by rewrite append_cons, prefix_cons.
Qed.

Lemma under_config_path path : under path (config_path path).
Proof. right. apply (prefix_rstrip_slash path "config.json"). Qed.

Lemma under_weights_path path : under path (weights_path path).
Proof. right. apply (prefix_rstrip_slash path "pytorch_model.bin"). Qed.

Lemma fs_exists_spec fs path :
  fs_exists fs (rstrip_slash path)
  <-> (exists d, d ∈ dirs fs /\ rstrip_slash d = rstrip_slash path)
      \/ (exists p, is_Some (files fs !! p)
                    /\ rstrip_slash p = rstrip_slash path).
Proof.
  unfold fs_exists. rewrite Exists_exists. split.
  - intros (p & Hin & Hp). apply elem_of_app in Hin as [Hin|Hin].
    + left. exists p. split; [by apply elem_of_elements|done].
    + right. exists p. split; [|done].
      apply list_elem_of_fmap in Hin as [[p' f] [-> Hin]].
      apply elem_of_map_to_list in Hin. by exists f.
  - intros [(d & Hin & Hd)|(p & [f Hf] & Hp)].
    + exists d. split; [|done]. apply elem_of_app. left.
      by apply elem_of_elements.
    + exists p. split; [|done]. apply elem_of_app. right.
      apply list_elem_of_fmap. exists (p, f). split; [done|].
      by apply elem_of_map_to_list.
Qed.



(** Removing a checkpoint undoes saving it: after [save_checkpoint] to a
    path with nothing at or under it, [remove_checkpoint] of the path gives
    back the files there were and leaves no directory at the path. *)
Theorem remove_checkpoint_undoes_save checkpoint path fs m :
  checkpoint !! "student" = Some (CkModel m) ->
  (forall p, under path p -> files fs !! p = None) ->
  let saved := (save_checkpoint checkpoint path fs).1 in
  files saved !! config_path path = Some (ConfigJson m)
  /\ files saved !! weights_path path = Some (WeightsBin m)
  /\ files (remove_checkpoint path saved).1 = files fs
  /\ path ∉ dirs (remove_checkpoint path saved).1.
Proof.
  intros Hm Hfree saved.
  assert (files fs !! path = None) as Hpath by apply Hfree, under_self.
  unfold saved. rewrite (save_checkpoint_fresh _ _ _ m Hm Hpath). simpl.
  assert (config_path path <> weights_path path) as Hne.
  { unfold config_path, weights_path. clear.
    induction path as [|c path IH]; [done|].
    rewrite !append_cons. by intros [= H]. }
  split; [by rewrite lookup_insert_ne, lookup_insert_eq|].
  split; [by rewrite lookup_insert_eq|].
  unfold remove_checkpoint. rewrite bool_decide_eq_true_2.
  2:{ apply fs_exists_spec. left. exists path. split; [set_solver|done]. }
  simpl. split.
  - rewrite map_filter_insert_not
      by (intros y Hn; apply Hn, under_weights_path).
    rewrite map_filter_insert_not
      by (intros y Hn; apply Hn, under_config_path).
    apply map_filter_id. intros p f Hf Hu. simpl in Hu.
    rewrite (Hfree p Hu) in Hf. done.
  - rewrite elem_of_filter. intros [Hn _]. apply Hn, under_self.
Qed.

(** Witness of [remove_checkpoint_undoes_save] on an empty file system *)
Lemma remove_checkpoint_undoes_save_witness :
  files (remove_checkpoint "ckpts/epoch=0"
           (save_checkpoint {[ "student" := CkModel (student labelled) ]}
              "ckpts/epoch=0" {| dirs := ∅; files := ∅ |}).1).1 = ∅.
Proof.
  refine (proj1 (proj2 (proj2 (remove_checkpoint_undoes_save
            {[ "student" := CkModel (student labelled) ]} "ckpts/epoch=0"
            {| dirs := ∅; files := ∅ |} (student labelled) _ _)))).
  - reflexivity.
  - intros p _. reflexivity.
Defined.

(** The adapter of [pretrainer.py] saves the model that
    [Pretrainer.on_save_checkpoint] stored under ['hg_model'] and nothing
    else: every file it writes is the configuration or the weights of that
    model under the path, and on a path that is not an existing file both
    are written. *)
Theorem pretrainer_save_checkpoint_model_only model checkpoint path fs :
  let saved :=
    Pretrainer.save_checkpoint
      (Pretrainer.on_save_checkpoint model checkpoint) path fs in
  (forall p f, written fs saved.1 p f ->
     source f = model /\ (p = config_path path \/ p = weights_path path))
  /\ (files fs !! path = None ->
      saved.2 = Returns tt
      /\ files saved.1
         = <[weights_path path := WeightsBin model]>
             (<[config_path path := ConfigJson model]> (files fs))).
Proof.
  intros saved. subst saved.
  unfold Pretrainer.save_checkpoint, Pretrainer.on_save_checkpoint,
    Pretrainer.hg_model_entry.
  change ((makedirs ?d;; ?k) fs) with (k (makedirs d fs).1).
  rewrite lift_bind, lookup_insert_eq. unfold save_pretrained, written. simpl.
  destruct (files fs !! path) as [f0|] eqn:Hpath; simpl.
  - split; [|done]. by intros p f [? ?].
  - split; [|done]. intros p f [Hnew Hold].
    destruct (decide (weights_path path = p)) as [<-|Hw].
    + rewrite lookup_insert_eq in Hnew. injection Hnew as <-. auto.
    + rewrite lookup_insert_ne in Hnew by done.
      destruct (decide (config_path path = p)) as [<-|Hc].
      * rewrite lookup_insert_eq in Hnew. injection Hnew as <-. auto.
      * rewrite lookup_insert_ne in Hnew by done. done.
Qed.

(** The two adapters are not interchangeable: the adapter of
    [distiller.py] looks for ['student'] and raises [KeyError] on a
    checkpoint prepared by [Pretrainer.on_save_checkpoint], the adapter of
    [pretrainer.py] looks for ['hg_model'] and raises [KeyError] on one
    prepared by [BaseDistiller.on_save_checkpoint]; neither writes a file
    then, but the parent directory has been created. *)
Theorem checkpoint_adapters_not_interchangeable self model checkpoint path fs :
  checkpoint !! "student" = None ->
  checkpoint !! "hg_model" = None ->
  save_checkpoint (Pretrainer.on_save_checkpoint model checkpoint) path fs
  = ({| dirs := {[ dirname path ]} ∪ dirs fs; files := files fs |},
     Raises (KeyError "student"))
  /\ Pretrainer.save_checkpoint (on_save_checkpoint self checkpoint) path fs
     = ({| dirs := {[ dirname path ]} ∪ dirs fs; files := files fs |},
        Raises (KeyError "hg_model")).
Proof.
  intros Hs Hh.
  unfold save_checkpoint, Pretrainer.save_checkpoint, student_entry,
    Pretrainer.hg_model_entry, on_save_checkpoint,
    Pretrainer.on_save_checkpoint.
  change ((makedirs ?d;; ?k) fs) with (k (makedirs d fs).1).
  rewrite !lift_bind, !lookup_insert_ne, Hs, Hh by done. done.
Qed.

(** Witness of [checkpoint_adapters_not_interchangeable] *)
Lemma checkpoint_adapters_not_interchangeable_witness :
  (save_checkpoint
     (Pretrainer.on_save_checkpoint (student labelled) (∅ : Checkpoint))
     "ckpts/epoch=0" {| dirs := ∅; files := ∅ |}).2
  = Raises (KeyError "student").
Proof.
  rewrite (proj1 (checkpoint_adapters_not_interchangeable labelled
                    (student labelled) (∅ : Checkpoint) "ckpts/epoch=0"
                    {| dirs := ∅; files := ∅ |}
                    (lookup_empty _) (lookup_empty _))).
  reflexivity.
Defined.
End CheckpointExtras.

(** * Exceptions of the perplexity computation *)

Section PerplexityExtras.
Import Pretrainer.
Variable stack_mean : list float -> result float.
Variable math_exp : float -> result float.

(** Only the overflow of [math.exp] is recovered: any other exception of
    [math.exp], and any exception of the mean (an [OverflowError] too),
    ends [validation_epoch_end] and nothing is logged; the perplexity itself
    never raises [OverflowError]. *)
Theorem validation_epoch_end_other_exceptions outputs log :
  (forall e, stack_mean outputs = Raises e ->
     validation_epoch_end stack_mean math_exp outputs log = Raises e)
  /\ (forall val_loss e,
        stack_mean outputs = Returns val_loss ->
        math_exp val_loss = Raises e -> e <> OverflowError ->
        validation_epoch_end stack_mean math_exp outputs log = Raises e)
  /\ (forall val_loss,
        perplexity math_exp val_loss <> Raises OverflowError).
Proof.
  unfold validation_epoch_end, perplexity. split; [|split].
  - by intros e ->.
  - intros val_loss e -> Hexp Hne. rewrite bind_Returns, Hexp.
    by destruct e.
  - intros val_loss. destruct (math_exp val_loss) as [v|[]]; done.
Qed.
End PerplexityExtras.

(** * More on the datasets, the models and the constructor *)

Section ScriptExtras.
Import Distiller Script.

(** With the validation set ['sst2'] (and a known training set),
    [get_dataset_obj] forces [num_classes] to 2 whatever was configured and
    returns the (renamed) SST-2 dataset with its ['train'] split replaced
    by the chosen training set: the renamed SST-2 training set for ['sst2'],
    the tweet training set for ['tweet'], the concatenation of the two
    without their labels for ['sst2-tweet']. Every other split is kept. *)
Theorem get_dataset_obj_sst2 (sst2 tweet : DatasetDict) args trn a b :
  args !! "trn_dataset" = Some trn ->
  valid_trn trn = true ->
  args !! "val_dataset" = Some (VStr "sst2") ->
  sst2 !! "train" = Some a ->
  tweet !! "train" = Some b ->
  exists dataset,
    get_dataset_obj (Returns sst2) (Returns tweet) args
    = Returns (dataset, setattr args "num_classes" (VInt 2))
    /\ setattr args "num_classes" (VInt 2) !! "num_classes" = Some (VInt 2)
    /\ (trn = VStr "sst2" ->
          dataset !! "train" = Some (rename_column "sentence" "text" a))
    /\ (trn = VStr "tweet" -> dataset !! "train" = Some b)
    /\ (trn = VStr "sst2-tweet" ->
          dataset !! "train"
          = Some (concatenate_datasets
                    (remove_columns ["idx"; "label"]
                       (rename_column "sentence" "text" a))
                    (remove_columns ["label"] b)))
    /\ (forall s, s <> "train" ->
          dataset !! s = rename_column "sentence" "text" <$> sst2 !! s).
Proof.
  intros Htrn Hvalid Hval Ha Hb.
  assert (exists train,
            get_dataset_obj (Returns sst2) (Returns tweet) args
            = Returns (<["train" := train]>
                         (rename_column "sentence" "text" <$> sst2),
                       setattr args "num_classes" (VInt 2))
            /\ (trn = VStr "sst2" ->
                  train = rename_column "sentence" "text" a)
            /\ (trn = VStr "tweet" -> train = b)
            /\ (trn = VStr "sst2-tweet" ->
                  train = concatenate_datasets
                            (remove_columns ["idx"; "label"]
                               (rename_column "sentence" "text" a))
                            (remove_columns ["label"] b)))
    as (train & Hret & Hsst2 & Htweet & Hboth).
  { unfold get_dataset_obj, getattr, split.
    rewrite !bind_Returns, Htrn, bind_Returns.
    rewrite !lookup_fmap, Ha, Hb. simpl.
    unfold valid_trn in Hvalid.
    destruct trn as [| | |s|]; try discriminate Hvalid. simpl in *.
    destruct (String.eqb_spec s "sst2") as [->|H1].
    { simpl. rewrite Hval. simpl. eexists. split; [reflexivity|].
      split; [done|]. split; intros [=]. }
    destruct (String.eqb_spec s "tweet") as [->|H2].
    { simpl. rewrite Hval. simpl. eexists. split; [reflexivity|].
      split; [intros [=]|]. split; [done|intros [=]]. }
    destruct (String.eqb_spec s "sst2-tweet") as [->|H3]; [|done].
    simpl. rewrite Hval. simpl. eexists. split; [reflexivity|].
    split; [intros [=]|]. split; [intros [=]|done]. }
  exists (<["train" := train]> (rename_column "sentence" "text" <$> sst2)).
  split; [done|]. split; [apply lookup_insert_eq|].
  split; [intros H; rewrite lookup_insert_eq; by rewrite (Hsst2 H)|].
  split; [intros H; rewrite lookup_insert_eq; by rewrite (Htweet H)|].
  split; [intros H; rewrite lookup_insert_eq; by rewrite (Hboth H)|].
  intros s Hs. by rewrite lookup_insert_ne, lookup_fmap.
Qed.

(** Witness of [get_dataset_obj_sst2]: a configured [num_classes] of 5 is
    replaced by 2, and the training split is the tweet training set *)
Lemma get_dataset_obj_sst2_witness :
  exists dataset,
    get_dataset_obj (Returns sample_sst2) (Returns sample_tweet)
      (setattr (sample_namespace "tweet" "sst2") "num_classes" (VInt 5))
    = Returns (dataset,
               setattr (setattr (sample_namespace "tweet" "sst2")
                          "num_classes" (VInt 5))
                 "num_classes" (VInt 2))
    /\ dataset !! "train" = Some (mkDataset ["text"; "label"] 7).
Proof.
  destruct (get_dataset_obj_sst2 sample_sst2 sample_tweet
              (setattr (sample_namespace "tweet" "sst2") "num_classes" (VInt 5))
              (VStr "tweet")
              (mkDataset ["sentence"; "label"; "idx"] 10)
              (mkDataset ["text"; "label"] 7)
              eq_refl eq_refl eq_refl eq_refl eq_refl)
    as (dataset & Hret & _ & _ & Htrain & _).
  exists dataset. split; [exact Hret | exact (Htrain eq_refl)].
Defined.

(** With the training set ['sst2-tweet'], on datasets that have the columns
    renamed and removed, the training split is the concatenation of the two
    training sets without their labels: it has as many rows as both
    together; its columns are those of the SST-2 training set, with
    ['sentence'] renamed to ['text'], other than ['idx'] and ['label'],
    and those of the tweet training set other than ['label']. So it has no
    ['label'] column, and an ['idx'] column exactly when the tweet training
    set has one. *)
Theorem get_dataset_obj_sst2_tweet (sst2 tweet : DatasetDict) args val a b :
  args !! "trn_dataset" = Some (VStr "sst2-tweet") ->
  args !! "val_dataset" = Some val ->
  valid_val val = true ->
  columns_present sst2 tweet ->
  sst2 !! "train" = Some a ->
  tweet !! "train" = Some b ->
  exists dataset args' train,
    get_dataset_obj (Returns sst2) (Returns tweet) args
    = Returns (dataset, args')
    /\ dataset !! "train" = Some train
    /\ num_rows train = num_rows a + num_rows b
    /\ (forall c, c ∈ column_names train
          <-> c <> "label"
              /\ ((c <> "idx"
                   /\ c ∈ column_names (rename_column "sentence" "text" a))
                  \/ c ∈ column_names b))
    /\ ("label" ∉ column_names train)
    /\ ("idx" ∈ column_names train <-> "idx" ∈ column_names b).
Proof.
  intros Htrn Hval Hvalid _ Ha Hb.
  set (train := concatenate_datasets
                  (remove_columns ["idx"; "label"]
                     (rename_column "sentence" "text" a))
                  (remove_columns ["label"] b)).
  assert (forall c, c ∈ column_names train
            <-> c <> "label"
                /\ ((c <> "idx"
                     /\ c ∈ column_names (rename_column "sentence" "text" a))
                    \/ c ∈ column_names b)) as Hcols.
  { intros c. unfold train, concatenate_datasets, remove_columns. simpl.
    set (cols := map _ (column_names a)).
    rewrite elem_of_app, !list_elem_of_filter, !not_elem_of_cons.
    pose proof (not_elem_of_nil c) as Hnil.
    destruct (decide (c ∈ cols)) as [Hc|Hc];
      destruct (decide (c = "label")) as [Hl|Hl];
      destruct (decide (c = "idx")) as [Hi|Hi]; tauto. }
  assert (exists dataset args',
            get_dataset_obj (Returns sst2) (Returns tweet) args
            = Returns (dataset, args')
            /\ dataset !! "train" = Some train) as (dataset & args' & Hret & Ht).
  { unfold get_dataset_obj, getattr, split.
    rewrite !bind_Returns, Htrn, bind_Returns. simpl.
    rewrite !lookup_fmap, Ha, Hb. simpl. rewrite Hval, bind_Returns.
    unfold valid_val in Hvalid.
    destruct (is_str val "sst2"); simpl.
    - eexists _, _. split; [reflexivity | apply lookup_insert_eq].
    - destruct (is_str val "tweet"); [|done]. simpl.
      eexists _, _. split; [reflexivity | apply lookup_insert_eq]. }
  exists dataset, args', train. split; [done|]. split; [done|].
  split; [done|]. split; [done|]. split.
  - rewrite Hcols. intros [Hl _]. by apply Hl.
  - rewrite Hcols. split.
    + intros [_ [[Hi _]|Hb']]; [by exfalso; apply Hi | done].
    + intros Hb'. split; [discriminate | by right].
Qed.

(** Witness of [get_dataset_obj_sst2_tweet]: 10 and 7 rows give 17, under
    the one column ['text'] *)
Lemma get_dataset_obj_sst2_tweet_witness :
  exists dataset args' train,
    get_dataset_obj (Returns sample_sst2) (Returns sample_tweet)
      (sample_namespace "sst2-tweet" "tweet")
    = Returns (dataset, args')
    /\ dataset !! "train" = Some train
    /\ num_rows train = 17
    /\ ("label" ∉ column_names train).
Proof.
  destruct (get_dataset_obj_sst2_tweet sample_sst2 sample_tweet
              (sample_namespace "sst2-tweet" "tweet") (VStr "tweet")
              (mkDataset ["sentence"; "label"; "idx"] 10)
              (mkDataset ["text"; "label"] 7)
              eq_refl eq_refl eq_refl)
    as (dataset & args' & train & Hret & Htrain & Hrows & _ & Hlabel & _).
  - split; refine (bool_decide_unpack _ _); vm_compute; exact I.
  - reflexivity.
  - reflexivity.
  - by exists dataset, args', train.
Defined.

(** The models of [get_teacher_and_student] always output attentions and
    hidden states. The teacher is the hub model named [args.teacher_model];
    without it the function raises. With no [args.student_model] the
    student is a fresh BERT whose size is taken from [hidden_size],
    [hidden_layers] and [atten_heads]; with one it is that hub model. *)
Theorem get_teacher_and_student_spec hub bert args :
  (forall teacher student,
     get_teacher_and_student hub bert args = Returns (teacher, student) ->
     output_attentions (m_config teacher) = true
     /\ output_hidden_states (m_config teacher) = true
     /\ output_attentions (m_config student) = true
     /\ output_hidden_states (m_config student) = true
     /\ (exists s m, args !! "teacher_model" = Some (VStr s)
                     /\ hub s = Some m
                     /\ m_name teacher = m_name m
                     /\ m_forward teacher = m_forward m)
     /\ (forall sm, args !! "student_model" = Some sm -> truthy sm = false ->
           m_name student = "bert"
           /\ Some (hidden_size (m_config student)) = args !! "hidden_size"
           /\ Some (num_hidden_layers (m_config student))
              = args !! "hidden_layers"
           /\ Some (num_attention_heads (m_config student))
              = args !! "atten_heads")
     /\ (forall sm, args !! "student_model" = Some sm -> truthy sm = true ->
           exists s m, sm = VStr s /\ hub s = Some m
                       /\ m_forward student = m_forward m))
  /\ (forall s, args !! "teacher_model" = Some (VStr s) -> hub s = None ->
        ~ returns (get_teacher_and_student hub bert args)).
Proof.
  assert (forall nm n m, from_pretrained hub nm n = Returns m ->
            exists s m', nm = VStr s /\ hub s = Some m'
                         /\ m_name m = m_name m'
                         /\ m_forward m = m_forward m') as Hfp.
  { intros nm n m. unfold from_pretrained.
    destruct nm as [| | |s|]; try done.
    destruct (hub s) as [m'|] eqn:Hs; [|done].
    intros [= <-]. by exists s, m'. }
  split.
  - intros teacher student. unfold get_teacher_and_student, getattr.
    destruct (args !! "student_model") as [sm|]; [|done].
    rewrite bind_Returns.
    destruct (truthy sm) eqn:Htruthy.
    + destruct (args !! "num_classes") as [n|]; [|done]. rewrite bind_Returns.
      destruct (from_pretrained hub sm n) as [s0|] eqn:Hs; [|done].
      rewrite bind_Returns.
      destruct (args !! "teacher_model") as [tm|]; [|done].
      rewrite !bind_Returns.
      destruct (from_pretrained hub tm n) as [t0|] eqn:Ht; [|done].
      rewrite bind_Returns. intros [= <- <-]. simpl.
      destruct (Hfp _ _ _ Ht) as (s & m & -> & Hm & Hn & Hf).
      destruct (Hfp _ _ _ Hs) as (s' & m' & -> & Hm' & Hn' & Hf').
      do 4 (split; [done|]). split; [by exists s, m|]. split.
      * intros sm' [= <-] Hfalse. congruence.
      * intros sm' [= <-] _. by exists s', m'.
    + destruct (args !! "hidden_size") as [hs|]; [|done]. rewrite bind_Returns.
      destruct (args !! "hidden_layers") as [hl|]; [|done].
      rewrite bind_Returns.
      destruct (args !! "atten_heads") as [ah|]; [|done]. rewrite bind_Returns.
      destruct (args !! "num_classes") as [n|]; [|done]. rewrite !bind_Returns.
      destruct (args !! "teacher_model") as [tm|]; [|done].
      rewrite !bind_Returns.
      destruct (from_pretrained hub tm n) as [t0|] eqn:Ht; [|done].
      rewrite bind_Returns. intros [= <- <-]. simpl.
      destruct (Hfp _ _ _ Ht) as (s & m & -> & Hm & Hn & Hf).
      do 4 (split; [done|]). split; [by exists s, m|]. split.
      * intros sm' [= <-] _. done.
      * intros sm' [= <-] Htrue. congruence.
  - intros s Hargs Hhub [[teacher student] Hret].
    unfold get_teacher_and_student, getattr in Hret. rewrite Hargs in Hret.
    destruct (args !! "student_model") as [sm|]; [|done].
    rewrite bind_Returns in Hret.
    destruct (_ : result Model) as [st|] in Hret; [|done].
    rewrite !bind_Returns in Hret.
    destruct (args !! "num_classes") as [n|]; [|done].
    rewrite bind_Returns in Hret. unfold from_pretrained in Hret.
    by rewrite Hhub in Hret.
Qed.

(** [BaseDistiller(...)] accepts exactly four arguments: any other number
    raises [TypeError], and four arguments whose third is a namespace with
    [num_classes] give an instance that holds them under [teacher],
    [student], [hparams] and [adaptors], with four metrics of that many
    classes. So the call of the script succeeds once the two adaptors are
    passed as one list. *)
Theorem construct_arity :
  (forall actuals, length actuals <> 4 ->
     exists msg, construct actuals = Raises (TypeError msg))
  /\ (forall teacher student ns ads n,
        ns !! "num_classes" = Some n ->
        exists self,
          construct [teacher; student; ONamespace ns; ads] = Returns self
          /\ get "teacher" self = Some teacher
          /\ get "student" self = Some student
          /\ get "hparams" self = Some (ONamespace ns)
          /\ get "adaptors" self = Some ads
          /\ get "acc_s" self = Some (OMetric (mkMetric "Accuracy" n 0))
          /\ get "f1_s" self = Some (OMetric (mkMetric "F1Score" n 0))
          /\ get "test_acc" self = Some (OMetric (mkMetric "Accuracy" n 0))
          /\ get "test_f1" self = Some (OMetric (mkMetric "F1Score" n 0))).
Proof.
  split.
  - intros actuals Hlen. unfold construct, bind_arguments. simpl.
    case_bool_decide; [by eexists|].
    case_bool_decide; [by eexists|]. lia.
  - intros teacher student ns ads n Hn. eexists. split.
    + unfold construct, bind_arguments, init_body. simpl.
      unfold obj_getattr, getattr. rewrite Hn. reflexivity.
    + simpl. repeat split; reflexivity.
Qed.
End ScriptExtras.

(** * The optimizer of the pretrainer *)

Section PretrainerOptimizer.
Import Distiller.
Variables Optimizer Scheduler : Type.
Variable AdamW : list ParamGroup -> pyval -> pyval -> result Optimizer.
Variable get_linear_schedule_with_warmup :
  Optimizer -> pyval -> pyval -> result Scheduler.

(** [Pretrainer.configure_optimizers] optimises every named parameter: when
    it returns, the two groups the optimizer was built from hold the
    parameters of the model, each one once, the first group with the
    configured weight decay and the second with 0.0. *)
Theorem pretrainer_optimizer_takes_all hparams named_parameters opts scheds :
  Pretrainer.configure_optimizers AdamW get_linear_schedule_with_warmup
    hparams named_parameters
  = Returns (opts, scheds) ->
  exists decayed not_decayed lr eps optimizer,
    AdamW [decayed; not_decayed] lr eps = Returns optimizer
    /\ opts = [optimizer]
    /\ hparams !! "weight_decay" = Some (group_weight_decay decayed)
    /\ group_weight_decay not_decayed = VFloat 0
    /\ (group_params decayed ++ group_params not_decayed)%list
       ≡ₚ map snd named_parameters.
Proof.
  unfold Pretrainer.configure_optimizers. intros H.
  apply configure_selected_inv in H
    as (wd & lr & eps & steps & warmup & optimizer & scheduler
        & Hwd & _ & _ & _ & _ & Hopt & _ & -> & _).
  eexists _, _, lr, eps, optimizer.
  split; [exact Hopt|]. split; [done|]. split; [done|]. split; [done|].
  simpl. rewrite <- map_app.
  by rewrite (filter_split_Permutation (fun np => any_no_decay np.1)).
Qed.
End PretrainerOptimizer.

(** Witness of [pretrainer_optimizer_takes_all] on the six sample
    parameters *)
Lemma pretrainer_optimizer_takes_all_witness :
  exists decayed not_decayed lr eps optimizer,
    recording_AdamW [decayed; not_decayed] lr eps = Returns optimizer
    /\ (Distiller.group_params decayed
        ++ Distiller.group_params not_decayed)%list
       ≡ₚ map snd sample_named_parameters.
Proof.
  destruct (pretrainer_optimizer_takes_all _ _ recording_AdamW
              recording_schedule sample_hparams sample_named_parameters
              [([ {| Distiller.group_params :=
                       [scalar_tensor 1; scalar_tensor 2; scalar_tensor 3;
                        scalar_tensor 6];
                     Distiller.group_weight_decay := VFloat (5 # 100000) |};
                  {| Distiller.group_params :=
                       [scalar_tensor 4; scalar_tensor 5];
                     Distiller.group_weight_decay := VFloat 0 |} ],
                VFloat (1 # 10000), VFloat (1 # 100000000))]
              [(([ {| Distiller.group_params :=
                        [scalar_tensor 1; scalar_tensor 2; scalar_tensor 3;
                         scalar_tensor 6];
                      Distiller.group_weight_decay := VFloat (5 # 100000) |};
                   {| Distiller.group_params :=
                        [scalar_tensor 4; scalar_tensor 5];
                      Distiller.group_weight_decay := VFloat 0 |} ],
                 VFloat (1 # 10000), VFloat (1 # 100000000)),
                VInt 1000, VInt 100, "step")] eq_refl)
    as (decayed & not_decayed & lr & eps & optimizer & Hopt & _ & _ & _ & Hperm).
  exists decayed, not_decayed, lr, eps, optimizer.
  split; [exact Hopt | exact Hperm].
Defined.
